(** * finetune/adapter_v2.py: the adapter-v2 finetuning driver

    A shallow embedding of the script's module-level hyperparameters, of
    [main], [train] and [save_adapter_v2_checkpoint], and the properties
    of its control flow: gradient accumulation, learning-rate warmup,
    periodic validation and checkpointing, and what a checkpoint holds.

    Python [int]s are [Z].  A Python [float] is the rational [Q] it stands
    for.  The quotients of the module level are taken exactly: they are
    whole numbers, or are used only under a floor.  The learning rate is
    computed in double precision: the literals are rounded to the nearest
    double and so is every product and quotient of line 157 ([round64]).
    Numeric equality of floats is [Qeq] ([==]). *)

From Stdlib Require Import ZArith QArith Qround Qabs Lia List Bool Ascii.
From Stdlib Require PrimFloat SpecFloat FloatOps.
From stdpp Require Import base option strings pretty list gmap fin_maps.
Import ListNotations.

Local Open Scope Z_scope.

(** ** Python exceptions and the error monad *)

Inductive exn : Type :=
| ZeroDivisionError
| AssertionError
| IndexError.

Inductive result (A : Type) : Type :=
| Ok (a : A)
| Raise (e : exn).

Arguments Ok {A} a.
Arguments Raise {A} e.

(** Sequencing: an exception ends the computation. Written [x ← r; k]. *)
#[global] Instance result_bind : MBind result := fun A B k r =>
  match r with
  | Ok a => k a
  | Raise e => Raise e
  end.

Definition is_ok {A : Type} (r : result A) : Prop := exists a, r = Ok a.

(** ** Doubles

    An IEEE 754 binary64 number other than an infinity or a NaN is a
    rational [m * 2^q] with [|m| <= 2^53] and [q >= -1074]. [round64]
    gives the double nearest to a rational, ties going to the even
    mantissa, as the hardware does after every operation. Overflow to
    an infinity is left out: no number of the script comes near it. *)

(** The integer nearest to [x], ties to even. *)
Definition round_half_even (x : Q) : Z :=
  let f := Qfloor x in
  match (x - inject_Z f ?= 1 # 2)%Q with
  | Lt => f
  | Gt => f + 1
  | Eq => if Z.even f then f else f + 1
  end.

(** The [e] with [2^e <= a < 2^(e+1)], for [a > 0]. *)
Definition ilog2 (a : Q) : Z :=
  let e := Z.log2 (Qnum a) - Z.log2 (Z.pos (Qden a)) in
  if Qle_bool (2 ^ e) a then e else e - 1.

Definition round64 (x : Q) : Q :=
  if Qeq_bool x 0 then 0%Q
  else
    let a := Qabs x in
    let q := Z.max (ilog2 a - 52) (-1074) in
    let m := round_half_even (a / 2 ^ q) in
    Qred ((if Qle_bool 0 x then 1 else -1) * inject_Z m * 2 ^ q).

(** The rational a machine double stands for, to compare [round64] with
    the arithmetic of the machine. *)
Definition Q_of_float (f : PrimFloat.float) : option Q :=
  match FloatOps.Prim2SF f with
  | SpecFloat.S754_zero _ => Some 0%Q
  | SpecFloat.S754_finite s m e =>
      Some (Qred ((if s then -1 else 1) * inject_Z (Z.pos m) * 2 ^ e))
  | _ => None
  end.

(** ** Python arithmetic *)

Module Py.

(** A float literal such as [3e-3]: the nearest double. *)
Definition literal (q : Q) : Q := round64 q.

(** [float(z)], the conversion an int operand of a float gets. *)
Definition of_int (z : Z) : Q := round64 (inject_Z z).

(** [a * b] on floats. *)
Definition fmul (a b : Q) : Q := round64 (a * b).

(** [a / b] on ints: true division, a float. *)
Definition truediv (a b : Z) : result Q :=
  if b =? 0 then Raise ZeroDivisionError
  else Ok (inject_Z a / inject_Z b)%Q.

(** [a // b] on ints. [Z.div] floors, as Python does. *)
Definition floordiv (a b : Z) : result Z :=
  if b =? 0 then Raise ZeroDivisionError else Ok (a / b).

(** [a % b] on ints. The result has the sign of [b], as [Z.modulo]. *)
Definition mod_ (a b : Z) : result Z :=
  if b =? 0 then Raise ZeroDivisionError else Ok (a mod b).

(** [a // b] when one operand is a float: the floor, as a float. *)
Definition ffloordiv (a b : Q) : result Q :=
  if Qeq_bool b 0 then Raise ZeroDivisionError
  else Ok (inject_Z (Qfloor (a / b))).

(** [a % b] when one operand is a float. *)
Definition fmod (a b : Q) : result Q :=
  if Qeq_bool b 0 then Raise ZeroDivisionError
  else Ok (a - b * inject_Z (Qfloor (a / b)))%Q.

(** [a / b] on floats. *)
Definition fdiv (a b : Q) : result Q :=
  if Qeq_bool b 0 then Raise ZeroDivisionError else Ok (round64 (a / b)).

(** [assert c] *)
Definition assert (c : bool) : result unit :=
  if c then Ok tt else Raise AssertionError.

(** [a > 0] on a float *)
Definition fpos (a : Q) : bool := negb (Qle_bool a 0).

End Py.

(** ** Module level: the hyperparameters (lines 26-44) *)

(** The literals written in the file. *)
Record literals : Type := {
  lit_eval_interval : Z;
  lit_save_interval : Z;
  lit_eval_iters : Z;
  lit_log_interval : Z;
  lit_devices : Z;
  lit_learning_rate : Q;
  lit_micro_batch_size : Z;
  lit_epoch_size : Z;
  lit_num_epochs : Z;
  lit_weight_decay : Q
}.

Definition source_literals : literals := {|
  lit_eval_interval := 600;
  lit_save_interval := 1000;
  lit_eval_iters := 100;
  lit_log_interval := 1;
  lit_devices := 1;
  lit_learning_rate := 3 # 1000;
  lit_micro_batch_size := 2;
  lit_epoch_size := 50000;
  lit_num_epochs := 5;
  lit_weight_decay := 2 # 100
|}.

(** The module's globals once the top level has run. [batch_size],
    [gradient_accumulation_iters] and [warmup_steps] are floats, because
    [128 / devices] is a true division; [max_iters] is an int. *)
Record hparams : Type := {
  eval_interval : Z;
  save_interval : Z;
  eval_iters : Z;
  log_interval : Z;
  devices : Z;
  learning_rate : Q;
  batch_size : Q;
  micro_batch_size : Z;
  gradient_accumulation_iters : Q;
  epoch_size : Z;
  num_epochs : Z;
  max_iters : Z;
  weight_decay : Q;
  warmup_steps : Q
}.

(** Running the top level of the module, statement by statement. *)
Definition module_init (l : literals) : result hparams :=
  batch_size ← Py.truediv 128 (lit_devices l);
  gradient_accumulation_iters ←
    Py.ffloordiv batch_size (inject_Z (lit_micro_batch_size l));
  _ ← Py.assert (Py.fpos gradient_accumulation_iters);
  per_epoch ← Py.floordiv (lit_epoch_size l) (lit_micro_batch_size l);
  max_iters ← Py.floordiv (lit_num_epochs l * per_epoch) (lit_devices l);
  per_epoch' ← Py.floordiv (lit_epoch_size l) (lit_micro_batch_size l);
  per_device ← Py.floordiv (2 * per_epoch') (lit_devices l);
  warmup_steps ← Py.ffloordiv (inject_Z per_device) gradient_accumulation_iters;
  Ok {|
    eval_interval := lit_eval_interval l;
    save_interval := lit_save_interval l;
    eval_iters := lit_eval_iters l;
    log_interval := lit_log_interval l;
    devices := lit_devices l;
    learning_rate := Py.literal (lit_learning_rate l);
    batch_size := batch_size;
    micro_batch_size := lit_micro_batch_size l;
    gradient_accumulation_iters := gradient_accumulation_iters;
    epoch_size := lit_epoch_size l;
    num_epochs := lit_num_epochs l;
    max_iters := max_iters;
    weight_decay := Py.literal (lit_weight_decay l);
    warmup_steps := warmup_steps
  |}.

(** The value of [learning_rate * step_count / warmup_steps] (line 157)
    for a non-zero [warmup_steps]: the int is converted, the product is
    rounded, then the quotient. *)
Definition warmup_rate (learning_rate : Q) (step_count : Z)
    (warmup_steps : Q) : Q :=
  round64 (Py.fmul learning_rate (Py.of_int step_count) / warmup_steps).



(** ** Paths and checkpoint file names *)

(** A [pathlib.Path], as its parts. *)
Definition path : Type := list string.

(** [p / name] for a relative, one-part [name]. *)
Definition path_join (p : path) (name : string) : path := p ++ [name].

(** [s.zfill(w)] on a string of digits: zeros on the left up to width [w]. *)
Definition zfill (w : nat) (s : string) : string :=
  String.concat "" (replicate (w - String.length s) "0"%string) +:+ s.

(** The format spec [{n:06d}]: decimal, zero-padded to six characters,
    the sign counted in the width. *)
Definition format_06d (n : Z) : string :=
  if n <? 0 then "-" +:+ zfill 5 (pretty (Z.to_N (- n)))
  else zfill 6 (pretty (Z.to_N n)).

(** [f"iter-{iter_num:06d}-ckpt.pth"] (line 208) *)
Definition iter_ckpt_name (iter_num : Z) : string :=
  "iter-" +:+ format_06d iter_num +:+ "-ckpt.pth".

Definition final_ckpt_name : string := "lit_model_adapter_finetuned.pth".

(** Tensors of weights, logit vectors (one per position) and loss values
    belong to the numeric framework; they are left abstract. *)

(** A [torch.nn.Parameter]. *)
Record param (tensor : Type) : Type := {
  data : tensor;
  requires_grad : bool
}.

Arguments data {tensor} _.
Arguments requires_grad {tensor} _.

(** One entry of [optimizer.param_groups]: the names of its parameters
    and its options. *)
Record param_group : Type := {
  pg_params : gset string;
  pg_lr : Q;
  pg_weight_decay : Q
}.

(** What an observer of the run sees, in order. *)
Inductive event (tensor loss_t : Type) : Type :=
| LoadCheckpoint (file_path : path)
| Validate
| MarkStep
| GetBatch (iter_num : Z) (ix : option Z)
| Backward (loss : loss_t) (divisor : Q) (no_sync : bool)
| OptimizerStep (groups : list param_group)
| ZeroGrad
| Log (iter_num step_count : Z)
| Save (file_path : path) (content : gmap string tensor).

Arguments LoadCheckpoint {tensor loss_t} file_path.
Arguments Validate {tensor loss_t}.
Arguments MarkStep {tensor loss_t}.
Arguments GetBatch {tensor loss_t} iter_num ix.
Arguments Backward {tensor loss_t} loss divisor no_sync.
Arguments OptimizerStep {tensor loss_t} groups.
Arguments ZeroGrad {tensor loss_t}.
Arguments Log {tensor loss_t} iter_num step_count.
Arguments Save {tensor loss_t} file_path content.

(** The names the script imports and the process it runs in. A batch of
    token ids is [batch][time]; a chunk of logits is [batch][time] of
    vectors over the vocabulary. *)
Class Framework (tensor vec loss_t : Type) : Type := {
  (** [lit_gpt.adapter_v2.adapter_filter] *)
  adapter_filter : string -> tensor -> bool;
  (** The parameters [add_adapter_v2_parameters_to_linear_layers]
      creates, by name, with their initial values. *)
  adapter_v2_parameters : gmap string tensor;
  (** [lazy_load]: the state dict stored in a file. *)
  lazy_load : path -> gmap string tensor;
  (** [finetune.adapter.get_batch], at a given iteration. *)
  get_batch : Z -> option Z -> list (list Z) * list (list Z);
  (** [longest_seq_ix] of [get_max_seq_length(train_data)] *)
  longest_seq_ix : Z;
  (** [model(input_ids, ..., lm_head_chunk_size=128)]: a list of chunks. *)
  gpt_forward : gmap string (param tensor) -> list (list Z)
                -> list (list (list vec));
  (** [lit_gpt.utils.chunked_cross_entropy] *)
  chunked_cross_entropy : list (list (list vec)) -> list (list Z) -> loss_t;
  (** The update [optimizer.step()] makes at a given step of the run. *)
  optimizer_update : Z -> list param_group -> gmap string (param tensor)
                     -> gmap string (param tensor);
  (** [fabric.device.type == "xla"] *)
  xla : bool
}.

Section Driver.

Context {tensor vec loss_t : Type} `{!Framework tensor vec loss_t}.

Local Abbreviation param := (param tensor).
Local Abbreviation event := (event tensor loss_t).
Local Abbreviation tokens := (list (list Z)).
Local Abbreviation chunk := (list (list vec)).

(** *** Framework calls *)

(** [model.state_dict()] *)
Definition state_dict (model : gmap string param) : gmap string tensor :=
  data <$> model.

(** [model.load_state_dict(checkpoint, strict=False)]: every key of the
    model that the checkpoint has takes the checkpoint's value; a key
    the checkpoint lacks is left alone; a key only the checkpoint has
    is ignored. *)
Definition load_state_dict (checkpoint : gmap string tensor)
    (model : gmap string param) : gmap string param :=
  map_imap (fun k p =>
    Some match checkpoint !! k with
         | Some v => {| data := v; requires_grad := requires_grad p |}
         | None => p
         end) model.

(** [fabric.save(file_path, {"model": model}, filter={"model": f})]:
    the entries of the state dict on which [f] is true are written. *)
Definition fabric_save (file_path : path) (model : gmap string param)
    (f : string -> tensor -> bool) : event :=
  Save file_path (filter (fun kv => f kv.1 kv.2 = true) (state_dict model)).

(** [torch.optim.AdamW(params, lr=..., weight_decay=...)]: one group. *)
Definition AdamW (params : gmap string param) (lr wd : Q)
    : list param_group :=
  [ {| pg_params := dom params; pg_lr := lr; pg_weight_decay := wd |} ].

(** Modelled from the spec: [add_adapter_v2_parameters_to_linear_layers]
    of [lit_gpt/adapter_v2.py] is not in the sources here. The spec has
    the driver "attach a small number of trainable adapter parameters":
    the call registers the new parameters on the model, trainable as
    every new parameter is. *)
Definition add_adapter_v2_parameters_to_linear_layers
    (model : gmap string param) : gmap string param :=
  ((fun v => {| data := v; requires_grad := true |})
     <$> adapter_v2_parameters) ∪ model.

(** Modelled from the spec: [mark_only_adapter_v2_as_trainable] of
    [lit_gpt/adapter_v2.py] is not in the sources here. The spec has the
    driver "freeze the base weights" and leave trainable the adapter
    parameters it attached: a parameter requires a gradient exactly when
    it is one of the adapter-v2 parameters, those
    [add_adapter_v2_parameters_to_linear_layers] registers. *)
Definition mark_only_adapter_v2_as_trainable
    (model : gmap string param) : gmap string param :=
  map_imap (fun k p =>
    Some {| data := data p;
            requires_grad :=
              bool_decide (is_Some (adapter_v2_parameters !! k)) |})
    model.

(** *** save_adapter_v2_checkpoint (lines 212-214) *)

Definition save_adapter_v2_checkpoint (model : gmap string param)
    (file_path : path) : event :=
  fabric_save file_path model adapter_filter.

(** *** The loss of one iteration (lines 169-172) *)

(** [c[..., :-1, :]]: the last time position of every sequence goes. *)
Definition drop_last_position (c : chunk) : chunk :=
  removelast (A:=vec) <$> c.

(** [t[..., 1:]]: the first time position of every sequence goes. *)
Definition shift_targets (t : tokens) : tokens :=
  List.tl <$> t.

(** [logits[-1] = logits[-1][..., :-1, :]] *)
Definition shift_logits (logits : list chunk) : result (list chunk) :=
  match last logits with
  | None => Raise IndexError
  | Some c =>
      Ok (<[Nat.pred (length logits) := drop_last_position c]> logits)
  end.

Definition iteration_loss (logits : list chunk) (targets : tokens)
    : result loss_t :=
  logits' ← shift_logits logits;
  Ok (chunked_cross_entropy logits' (shift_targets targets)).

(** *** train (lines 125-209) *)

Variable hp : hparams.
Variable out_dir : path.

Record train_state : Type := {
  step_count : Z;
  optimizer : list param_group;
  model : gmap string param
}.

Definition set_lr (lr : Q) (g : param_group) : param_group :=
  {| pg_params := pg_params g; pg_lr := lr;
     pg_weight_decay := pg_weight_decay g |}.

(** Lines 155-159: the linear warmup. *)
Definition warmup (st : train_state) : result (list param_group) :=
  if Qle_bool (inject_Z (step_count st)) (warmup_steps hp) then
    lr ← Py.fdiv (Py.fmul (learning_rate hp) (Py.of_int (step_count st)))
                 (warmup_steps hp);
    Ok (set_lr lr <$> optimizer st)
  else Ok (optimizer st).

(** [not is_accumulating and n % interval == 0]: [and] does not
    evaluate its right operand when the left one is false. *)
Definition due (is_accumulating : bool) (n interval : Z) : result bool :=
  if is_accumulating then Ok false
  else m ← Py.mod_ n interval; Ok (m =? 0).

(** Line 167: [(iter_num + 1) % gradient_accumulation_iters != 0] *)
Definition is_accumulating (iter_num : Z) : result bool :=
  r ← Py.fmod (inject_Z (iter_num + 1)) (gradient_accumulation_iters hp);
  Ok (negb (Qeq_bool r 0)).

(** Lines 175-178: the state after the iteration. [groups] are the
    param groups after the warmup; on a step the optimizer updates the
    model and [step_count] goes up by one. *)
Definition state_after (st : train_state) (groups : list param_group)
    (is_accumulating : bool) : train_state :=
  if is_accumulating then
    {| step_count := step_count st; optimizer := groups;
       model := model st |}
  else
    {| step_count := step_count st + 1; optimizer := groups;
       model := optimizer_update (step_count st) groups (model st) |}.

(** One pass through the body of the loop (lines 155-209). The timers,
    the speed monitor and the text of the log line only report; they are
    left out, the test [iter_num % log_interval == 0] is kept. *)
Definition train_iter (st : train_state) (iter_num : Z)
    : result (train_state * list event) :=
  groups ← warmup st;
  let ix := if iter_num =? 0 then Some longest_seq_ix else None in
  let batch := get_batch iter_num ix in
  is_accumulating ← is_accumulating iter_num;
  loss ← iteration_loss (gpt_forward (model st) batch.1) batch.2;
  let backward :=
    Backward loss (gradient_accumulation_iters hp) is_accumulating in
  let st' := state_after st groups is_accumulating in
  let stepped :=
    if is_accumulating then (if xla then [MarkStep] else [])
    else [OptimizerStep groups; ZeroGrad] in
  lg ← Py.mod_ iter_num (log_interval hp);
  let logged := if lg =? 0 then [Log iter_num (step_count st')] else [] in
  do_val ← due is_accumulating (step_count st') (eval_interval hp);
  let validated := if do_val : bool then [Validate] else [] in
  do_save ← due is_accumulating (step_count st') (save_interval hp);
  let saved :=
    if do_save : bool then
      [save_adapter_v2_checkpoint (model st')
         (path_join out_dir (iter_ckpt_name iter_num))]
    else [] in
  Ok (st', [GetBatch iter_num ix; backward] ++ stepped ++ logged
             ++ validated ++ saved).

(** [for iter_num in iters: ...] *)
Fixpoint train_loop (iters : list Z) (st : train_state)
    : result (train_state * list event) :=
  match iters with
  | [] => Ok (st, [])
  | iter_num :: rest =>
      r1 ← train_iter st iter_num;
      r2 ← train_loop rest r1.1;
      Ok (r2.1, r1.2 ++ r2.2)
  end.

(** The tokenizer, [get_max_seq_length] and the meta model (lines
    135-144) feed [validate], [get_batch] and the flops estimate only. *)
Definition train (model0 : gmap string param)
    (optimizer0 : list param_group) : result (train_state * list event) :=
  r ← train_loop (seqZ 0 (max_iters hp))
        {| step_count := 0; optimizer := optimizer0; model := model0 |};
  Ok (r.1, [Validate] ++ (if xla then [MarkStep] else []) ++ r.2).

(** *** main (lines 81-122) *)

(** Lines 97-105: build the model, initialise its weights, load the
    checkpoint, then add the adapter parameters and freeze the rest.
    [initialized] is the state dict after [model.apply(_init_weights)]. *)
Definition loaded_model (initialized : gmap string tensor)
    (checkpoint_dir : path) : gmap string param :=
  let checkpoint_path := path_join checkpoint_dir "lit_model.pth" in
  let model := (fun v => {| data := v; requires_grad := true |})
                 <$> initialized in
  load_state_dict (lazy_load checkpoint_path) model.

Definition prepared_model (initialized : gmap string tensor)
    (checkpoint_dir : path) : gmap string param :=
  mark_only_adapter_v2_as_trainable
    (add_adapter_v2_parameters_to_linear_layers
       (loaded_model initialized checkpoint_dir)).

(** Lines 109-111 *)
Definition make_optimizer (model : gmap string param) : list param_group :=
  let trainable_params := filter (fun kp => requires_grad kp.2 = true) model in
  AdamW trainable_params (learning_rate hp) (weight_decay hp).

(** The directory check, the seeds, [os.makedirs], the loading of the
    data sets and the prints (lines 82-92, 107-108, 114-118) do not touch
    the model or the optimizer. [fabric.setup] hands both back wrapped. *)
Definition main (initialized : gmap string tensor) (checkpoint_dir : path)
    : result (list event) :=
  let model0 := prepared_model initialized checkpoint_dir in
  let optimizer0 := make_optimizer model0 in
  r ← train model0 optimizer0;
  let save_path := path_join out_dir final_ckpt_name in
  Ok ([LoadCheckpoint (path_join checkpoint_dir "lit_model.pth")]
        ++ r.2 ++ [save_adapter_v2_checkpoint (model r.1) save_path]).

End Driver.

(** ** Reading a trace *)

Section Trace.

Context {tensor vec loss_t : Type}.

Local Abbreviation event := (event tensor loss_t).

Definition is_optimizer_step (e : event) : bool :=
  match e with OptimizerStep _ => true | _ => false end.

Definition is_zero_grad (e : event) : bool :=
  match e with ZeroGrad => true | _ => false end.

Definition is_backward (e : event) : bool :=
  match e with Backward _ _ _ => true | _ => false end.

Definition is_validate (e : event) : bool :=
  match e with Validate => true | _ => false end.

Definition is_save (e : event) : bool :=
  match e with Save _ _ => true | _ => false end.

(** [Save] events that write to [p]. *)
Definition saves_to (p : path) (e : event) : bool :=
  match e with Save q _ => bool_decide (q = p) | _ => false end.

(** The param groups of the first [optimizer.step()] of a trace. *)
Fixpoint first_optimizer_step (evs : list event)
    : option (list param_group) :=
  match evs with
  | [] => None
  | OptimizerStep groups :: _ => Some groups
  | _ :: rest => first_optimizer_step rest
  end.

(** The paths written to, and the learning rates the steps ran with. *)
Definition save_paths (evs : list event) : list path :=
  omap (fun e => match e with Save p _ => Some p | _ => None end) evs.

Definition step_lrs (evs : list event) : list (list Q) :=
  omap (fun e => match e with
                 | OptimizerStep groups => Some (Qred ∘ pg_lr <$> groups)
                 | _ => None
                 end) evs.

(** The logits of sequence [b] of the batch, over all chunks: the
    chunks split the time axis. *)
Definition sequence_logits (logits : list (list (list vec))) (b : nat)
    : list vec :=
  concat ((fun c : list (list vec) => default [] (c !! b)) <$> logits).

End Trace.

(** A checkpoint's content has only entries [adapter_filter] selects,
    and a trace only writes such checkpoints. *)
Definition adapter_only {tensor vec loss_t : Type}
    `{!Framework tensor vec loss_t} (content : gmap string tensor) : Prop :=
  forall k v, content !! k = Some v -> adapter_filter k v = true.

Definition saves_adapter_only {tensor vec loss_t : Type}
    `{!Framework tensor vec loss_t} (e : event tensor loss_t) : Prop :=
  match e with Save _ content => adapter_only content | _ => True end.

(** Hyperparameters under which no division of the loop is by zero. *)
Definition hparams_ok (hp : hparams) : bool :=
  negb (Qeq_bool (gradient_accumulation_iters hp) 0)
  && negb (Qeq_bool (warmup_steps hp) 0)
  && negb (log_interval hp =? 0)
  && negb (eval_interval hp =? 0)
  && negb (save_interval hp =? 0).

(** ** More ways to read a trace *)

Definition is_get_batch {tensor loss_t : Type} (e : event tensor loss_t)
    : bool :=
  match e with GetBatch _ _ => true | _ => false end.

(** ** Reading a checkpoint name back *)

Definition is_digit (c : ascii) : bool :=
  ((48 <=? N_of_ascii c) && (N_of_ascii c <=? 57))%N.

Definition digit_value (c : ascii) : N := (N_of_ascii c - 48)%N.

(** The number the leading decimal digits of [s] spell, after [acc]. *)
Fixpoint read_digits (acc : N) (s : string) : N :=
  match s with
  | EmptyString => acc
  | String c rest =>
      if is_digit c then read_digits (acc * 10 + digit_value c) rest
      else acc
  end.

(** The iteration a periodic checkpoint's name stands for. *)
Definition ckpt_iter_num (name : string) : option N :=
  match name with
  | String "i"%char (String "t"%char (String "e"%char (String "r"%char
      (String "-"%char rest)))) =>
      Some (read_digits 0 rest)
  | _ => None
  end.

(** ** A small concrete run

    Weights, logits and losses are integers; the loss is the pair of what
    [chunked_cross_entropy] is given. Used to evaluate the definitions. *)

Module Demo.

Definition is_adapter_name (k : string) : bool :=
  bool_decide (k = "adapter_scale"%string ∨ k = "adapter_bias"%string).

#[global] Instance demo_framework
    : Framework Z Z (list (list (list Z)) * list (list Z)) := {|
  adapter_filter := fun k _ => is_adapter_name k;
  adapter_v2_parameters :=
    {[ "adapter_scale"%string := 1; "adapter_bias"%string := 0 ]};
  lazy_load := fun _ =>
    {[ "wte"%string := 7; "adapter_bias"%string := 9;
       "unexpected"%string := 8 ]};
  get_batch := fun i _ => ([[i; i + 1; i + 2]], [[i; i + 1; i + 2]]);
  longest_seq_ix := 0;
  gpt_forward := fun _ x => [x; x];
  chunked_cross_entropy := fun l t => (l, t);
  optimizer_update := fun n _ m => m;
  xla := false
|}.

(** The initialised model: a base weight the checkpoint has, and one
    it lacks. *)
Definition initialized : gmap string Z :=
  {[ "wte"%string := 1; "gating_factor"%string := 2 ]}.

(** Literals that give two micro-batches per step, six iterations and
    two warmup steps. *)
Definition demo_literals : literals := {|
  lit_eval_interval := 2;
  lit_save_interval := 3;
  lit_eval_iters := 100;
  lit_log_interval := 1;
  lit_devices := 1;
  lit_learning_rate := 3 # 1000;
  lit_micro_batch_size := 64;
  lit_epoch_size := 128;
  lit_num_epochs := 3;
  lit_weight_decay := 2 # 100
|}.

(** What the top level of the module leaves with them. *)
Definition demo_hparams : hparams := {|
  eval_interval := 2;
  save_interval := 3;
  eval_iters := 100;
  log_interval := 1;
  devices := 1;
  learning_rate := round64 (3 # 1000);
  batch_size := 128 # 1;
  micro_batch_size := 64;
  gradient_accumulation_iters := 2 # 1;
  epoch_size := 128;
  num_epochs := 3;
  max_iters := 6;
  weight_decay := round64 (2 # 100);
  warmup_steps := 2 # 1
|}.

(** The literals of the file, for a training set of 60 samples. *)
Definition tiny_set_literals : literals := {|
  lit_eval_interval := 600;
  lit_save_interval := 1000;
  lit_eval_iters := 100;
  lit_log_interval := 1;
  lit_devices := 1;
  lit_learning_rate := 3 # 1000;
  lit_micro_batch_size := 2;
  lit_epoch_size := 60;
  lit_num_epochs := 5;
  lit_weight_decay := 2 # 100
|}.

Definition demo_out_dir : path := ["out"; "adapter_v2"; "alpaca"]%string.
Definition demo_checkpoint_dir : path := ["checkpoints"; "demo"]%string.

(** The model and the state the loop starts from. *)
Definition demo_model : gmap string (param Z) :=
  prepared_model initialized demo_checkpoint_dir.

Definition demo_start : train_state :=
  {| step_count := 0; optimizer := make_optimizer demo_hparams demo_model;
     model := demo_model |}.

End Demo.

(** * Properties *)

(** ** File names *)

Example format_06d_12 : format_06d 12 = "000012"%string.
Proof. reflexivity. Qed.

Example format_06d_wide : format_06d 1234567 = "1234567"%string.
Proof. reflexivity. Qed.

Example iter_ckpt_name_63999 :
  iter_ckpt_name 63999 = "iter-063999-ckpt.pth"%string.
Proof. reflexivity. Qed.

(** ** The model, the optimizer and what the run does *)

Lemma iter_ckpt_name_not_final (iter_num : Z) :
  iter_ckpt_name iter_num <> final_ckpt_name.
Proof. unfold iter_ckpt_name, final_ckpt_name. simpl. discriminate. Qed.

Lemma path_join_inj (p : path) (a b : string) :
  path_join p a = path_join p b -> a = b.
Proof.
  unfold path_join. intros H. apply app_inv_head in H. congruence.
Qed.

(** ** The error monad *)

Lemma bind_Ok {A B : Type} (r : result A) (k : A -> result B) (b : B) :
  r ≫= k = Ok b <-> exists a, r = Ok a /\ k a = Ok b.
Proof.
  destruct r as [a | e]; simpl; split.
  - intros H. exists a. auto.
  - intros (a' & Ha & H). congruence.
  - discriminate.
  - intros (a' & Ha & _). discriminate.
Qed.

(** Run the binds whose left operand is a value, and nothing else. *)
Ltac mstep := cbn [mbind result_bind].

(** Take the first bind of a hypothesis [H : (x ← r; k) = Ok b] apart. *)
Ltac inv_bind H :=
  let a := fresh "a" in
  let E := fresh "E" in
  apply bind_Ok in H; destruct H as (a & E & H).

(** ** Python arithmetic *)

Lemma Qeq_bool_false (a b : Q) : Qeq_bool a b = false <-> ~ (a == b)%Q.
Proof.
  split.
  - intros H E. apply Qeq_bool_iff in E. congruence.
  - intros H. destruct (Qeq_bool a b) eqn:E; [| reflexivity].
    apply Qeq_bool_iff in E. contradiction.
Qed.

Lemma fpos_true (a : Q) : Py.fpos a = true <-> (0 < a)%Q.
Proof.
  unfold Py.fpos. rewrite negb_true_iff. split.
  - intros H. apply Qnot_le_lt. intros Hle. apply Qle_bool_iff in Hle. congruence.
  - intros H. destruct (Qle_bool a 0) eqn:E; [| reflexivity].
    apply Qle_bool_iff in E. exfalso. exact (Qlt_not_le _ _ H E).
Qed.

(** A float that is a floor is positive exactly when the floored number
    is at least one. *)
Lemma floor_pos (x : Q) : (0 < inject_Z (Qfloor x))%Q <-> (1 <= x)%Q.
Proof.
  split.
  - intros H. rewrite <- (Zlt_Qlt 0) in H.
    apply Qle_trans with (inject_Z (Qfloor x)); [| apply Qfloor_le].
    change 1%Q with (inject_Z 1). rewrite <- Zle_Qle. lia.
  - intros H. rewrite <- (Zlt_Qlt 0).
    apply Qfloor_resp_le in H. change (Qfloor 1) with 1%Z in H. lia.
Qed.

Lemma fmod_int (a g : Z) :
  g <> 0 -> exists r, Py.fmod (inject_Z a) (inject_Z g) = Ok r
                      /\ (r == inject_Z (a mod g))%Q.
Proof.
  intros Hg. unfold Py.fmod.
  assert (Hq : Qeq_bool (inject_Z g) 0 = false).
  { apply Qeq_bool_false. change 0%Q with (inject_Z 0).
    rewrite inject_Z_injective. exact Hg. }
  rewrite Hq. eexists. split; [reflexivity |].
  rewrite <- Zdiv_Qdiv, <- inject_Z_mult.
  unfold Qminus. rewrite <- inject_Z_opp, <- inject_Z_plus.
  rewrite inject_Z_injective. rewrite Z.mod_eq by exact Hg. lia.
Qed.

(** ** The hyperparameters *)

Example module_init_source :
  exists h, module_init source_literals = Ok h /\
            gradient_accumulation_iters h = 64 # 1 /\ max_iters h = 125000.
Proof. eexists. split; [reflexivity | split; reflexivity]. Qed.

(** C8. With the literals of the file (devices 1, micro batch size 2,
    epoch size 50000, five epochs) the top level runs without an
    exception and leaves batch_size = 128, gradient_accumulation_iters =
    64, max_iters = 125000 and warmup_steps = 781, the last being
    2 * (epoch_size // micro_batch_size) // devices //
    gradient_accumulation_iters. *)
Theorem default_hyperparameters :
  exists h,
    module_init source_literals = Ok h /\
    devices h = 1 /\ micro_batch_size h = 2 /\
    epoch_size h = 50000 /\ num_epochs h = 5 /\
    batch_size h = inject_Z 128 /\
    gradient_accumulation_iters h = inject_Z 64 /\
    max_iters h = 125000 /\
    warmup_steps h = inject_Z 781 /\
    Py.ffloordiv
      (inject_Z (2 * (epoch_size h / micro_batch_size h) / devices h))
      (gradient_accumulation_iters h) = Ok (warmup_steps h).
Proof.
  eexists. split; [reflexivity |]. repeat split; reflexivity.
Qed.

(** The loop divides by none of the source's hyperparameters being zero. *)
Lemma source_hparams_ok (h : hparams) :
  module_init source_literals = Ok h -> hparams_ok h = true.
Proof. intros [= <-]. reflexivity. Qed.

Lemma inject_Z_nonzero (z : Z) : z <> 0 -> Qeq_bool (inject_Z z) 0 = false.
Proof.
  intros Hz. apply Qeq_bool_false. change 0%Q with (inject_Z 0).
  rewrite inject_Z_injective. exact Hz.
Qed.

Lemma Qpos_nonzero (a : Q) : (0 < a)%Q -> Qeq_bool a 0 = false.
Proof.
  intros H. apply Qeq_bool_false. intros E. rewrite E in H.
  exact (Qlt_irrefl _ H).
Qed.

(** What an import that goes through has established. *)
Lemma module_init_Ok (l : literals) (h : hparams) :
  module_init l = Ok h ->
  lit_devices l <> 0 /\ lit_micro_batch_size l <> 0 /\
  batch_size h = (inject_Z 128 / inject_Z (lit_devices l))%Q /\
  gradient_accumulation_iters h =
    inject_Z (Qfloor (batch_size h / inject_Z (lit_micro_batch_size l))) /\
  (0 < gradient_accumulation_iters h)%Q /\
  learning_rate h = Py.literal (lit_learning_rate l) /\
  exists w : Z, warmup_steps h = inject_Z w.
Proof.
  unfold module_init. intros H.
  inv_bind H. inv_bind H. inv_bind H. inv_bind H. inv_bind H.
  inv_bind H. inv_bind H. inv_bind H. injection H as <-.
  cbn [batch_size gradient_accumulation_iters learning_rate warmup_steps].
  unfold Py.truediv in E. destruct (Z.eqb_spec (lit_devices l) 0); [discriminate |].
  injection E as <-.
  unfold Py.floordiv in E2.
  destruct (Z.eqb_spec (lit_micro_batch_size l) 0); [discriminate |].
  unfold Py.ffloordiv in E0.
  destruct (Qeq_bool (inject_Z (lit_micro_batch_size l)) 0); [discriminate |].
  injection E0 as <-.
  unfold Py.assert in E1.
  destruct (Py.fpos _) eqn:Hpos in E1; [| discriminate].
  apply fpos_true in Hpos.
  unfold Py.ffloordiv in E6. destruct (Qeq_bool _ 0) in E6; [discriminate |].
  injection E6 as <-.
  repeat split; auto. eexists; reflexivity.
Qed.

(** Line 167 never divides by zero once the import went through. *)
Lemma is_accumulating_ok (h : hparams) (iter_num : Z) :
  Qeq_bool (gradient_accumulation_iters h) 0 = false ->
  is_ok (is_accumulating h iter_num).
Proof.
  intros Hg. unfold is_accumulating, Py.fmod. rewrite Hg. mstep.
  eexists; reflexivity.
Qed.

(** C10. The import goes through only when batch_size // micro_batch_size
    is positive, which for positive constants means batch_size >=
    micro_batch_size; when the quotient is computed and is not positive,
    line 39 raises AssertionError. After an import that went through,
    gradient_accumulation_iters > 0 and the modulo of line 167 is defined
    at every iteration. *)
Theorem import_needs_positive_accumulation (l : literals) :
  let bs := (inject_Z 128 / inject_Z (lit_devices l))%Q in
  let q := inject_Z (Qfloor (bs / inject_Z (lit_micro_batch_size l))) in
  (forall h, module_init l = Ok h ->
     batch_size h = bs /\ gradient_accumulation_iters h = q /\
     (0 < gradient_accumulation_iters h)%Q /\
     forall iter_num, is_ok (is_accumulating h iter_num)) /\
  (lit_devices l <> 0 -> lit_micro_batch_size l <> 0 ->
     ((0 < q)%Q -> is_ok (module_init l)) /\
     (~ (0 < q)%Q -> module_init l = Raise AssertionError)) /\
  (0 < lit_devices l -> 0 < lit_micro_batch_size l ->
     ((0 < q)%Q <-> (inject_Z (lit_micro_batch_size l) <= bs)%Q)).
Proof.
  intros bs q. split; [| split].
  - intros h Hh. apply module_init_Ok in Hh as (_ & _ & Hb & Hg & Hpos & _).
    split; [exact Hb |]. split; [rewrite Hg, Hb; reflexivity |].
    split; [exact Hpos |]. intros i. apply is_accumulating_ok.
    apply Qpos_nonzero. exact Hpos.
  - intros Hd Hm. unfold module_init, Py.truediv, Py.ffloordiv, Py.floordiv.
    destruct (Z.eqb_spec (lit_devices l) 0) as [| _]; [contradiction |].
    destruct (Z.eqb_spec (lit_micro_batch_size l) 0) as [| _]; [contradiction |].
    rewrite (inject_Z_nonzero _ Hm). mstep. fold bs. fold q. split.
    + intros Hq. pose proof (proj2 (fpos_true q) Hq) as Hp. rewrite Hp.
      unfold Py.assert. mstep.
      rewrite (Qpos_nonzero _ Hq). mstep. eexists; reflexivity.
    + intros Hq. destruct (Py.fpos q) eqn:Hp; [| reflexivity].
      apply fpos_true in Hp. contradiction.
  - intros Hd Hm. subst q. rewrite floor_pos.
    assert (Hm' : (0 < inject_Z (lit_micro_batch_size l))%Q).
    { change 0%Q with (inject_Z 0). rewrite <- Zlt_Qlt. exact Hm. }
    split; intros H.
    + apply Qmult_le_r with (z := inject_Z (lit_micro_batch_size l)) in H;
        [| exact Hm'].
      rewrite Qmult_1_l in H. unfold Qdiv in H.
      rewrite <- Qmult_assoc, (Qmult_comm (/ _)), Qmult_inv_r, Qmult_1_r in H;
        [exact H |].
      intros E. rewrite E in Hm'. exact (Qlt_irrefl _ Hm').
    + apply Qle_shift_div_l; [exact Hm' |]. rewrite Qmult_1_l. exact H.
Qed.

(** The source's constants go through the import; a micro batch larger
    than the batch does not. *)
Lemma import_needs_positive_accumulation_witness :
  (exists h, module_init source_literals = Ok h /\
             (0 < gradient_accumulation_iters h)%Q /\
             is_ok (is_accumulating h 63)) /\
  module_init {| lit_eval_interval := 600; lit_save_interval := 1000;
                 lit_eval_iters := 100; lit_log_interval := 1;
                 lit_devices := 1; lit_learning_rate := 3 # 1000;
                 lit_micro_batch_size := 129; lit_epoch_size := 50000;
                 lit_num_epochs := 5; lit_weight_decay := 2 # 100 |}
    = Raise AssertionError.
Proof.
  split.
  - destruct (import_needs_positive_accumulation source_literals)
      as (H1 & _ & _).
    eexists. split; [reflexivity |].
    destruct (H1 _ eq_refl) as (_ & _ & Hpos & Hacc).
    split; [exact Hpos | exact (Hacc 63)].
  - match goal with |- module_init ?l = _ =>
      destruct (import_needs_positive_accumulation l) as (_ & H2 & _) end.
    destruct H2 as (_ & H2); [simpl; lia | simpl; lia |].
    apply H2. vm_compute. intros H. discriminate H.
Defined.

(** ** Preparing the model (main, lines 94-111) *)

Section ModelFacts.

Context {tensor vec loss_t : Type} `{!Framework tensor vec loss_t}.

Implicit Types (k : string) (v : tensor) (p : param tensor).
Implicit Types (initialized checkpoint : gmap string tensor).
Implicit Types (m : gmap string (param tensor)).

Lemma lookup_load_state_dict checkpoint m k :
  load_state_dict checkpoint m !! k =
    (fun p => match checkpoint !! k with
              | Some v => {| data := v; requires_grad := requires_grad p |}
              | None => p
              end) <$> m !! k.
Proof.
  unfold load_state_dict. rewrite map_lookup_imap.
  destruct (m !! k); reflexivity.
Qed.

Lemma lookup_mark_only m k :
  mark_only_adapter_v2_as_trainable m !! k =
    (fun p => {| data := data p;
                 requires_grad :=
                   bool_decide (is_Some (adapter_v2_parameters !! k)) |})
      <$> m !! k.
Proof.
  unfold mark_only_adapter_v2_as_trainable. rewrite map_lookup_imap.
  destruct (m !! k); reflexivity.
Qed.

Lemma lookup_add_adapter_new m k v :
  adapter_v2_parameters !! k = Some v ->
  add_adapter_v2_parameters_to_linear_layers m !! k
    = Some {| data := v; requires_grad := true |}.
Proof.
  intros Hk. unfold add_adapter_v2_parameters_to_linear_layers.
  apply lookup_union_Some_l. rewrite lookup_fmap, Hk. reflexivity.
Qed.

Lemma lookup_add_adapter_old m k :
  adapter_v2_parameters !! k = None ->
  add_adapter_v2_parameters_to_linear_layers m !! k = m !! k.
Proof.
  intros Hk. unfold add_adapter_v2_parameters_to_linear_layers.
  apply lookup_union_r. rewrite lookup_fmap, Hk. reflexivity.
Qed.

Lemma lookup_loaded_model initialized checkpoint_dir k :
  loaded_model initialized checkpoint_dir !! k =
    (fun v => {| data := default v
                   (lazy_load (path_join checkpoint_dir "lit_model.pth") !! k);
                 requires_grad := true |}) <$> initialized !! k.
Proof.
  unfold loaded_model. rewrite lookup_load_state_dict, lookup_fmap.
  destruct (initialized !! k); simpl; [| reflexivity].
  destruct (lazy_load _ !! k); reflexivity.
Qed.

Lemma lookup_prepared_model_base initialized checkpoint_dir k v :
  initialized !! k = Some v ->
  adapter_v2_parameters !! k = None ->
  prepared_model initialized checkpoint_dir !! k
    = Some {| data := default v
                (lazy_load (path_join checkpoint_dir "lit_model.pth") !! k);
              requires_grad := false |}.
Proof.
  intros Hi Ha. unfold prepared_model.
  rewrite lookup_mark_only, (lookup_add_adapter_old _ _ Ha).
  rewrite lookup_loaded_model, Hi, Ha. reflexivity.
Qed.

Lemma lookup_prepared_model_adapter initialized checkpoint_dir k v :
  adapter_v2_parameters !! k = Some v ->
  prepared_model initialized checkpoint_dir !! k
    = Some {| data := v; requires_grad := true |}.
Proof.
  intros Ha. unfold prepared_model.
  rewrite lookup_mark_only, (lookup_add_adapter_new _ _ _ Ha), Ha.
  reflexivity.
Qed.

Lemma requires_grad_prepared_model initialized checkpoint_dir k p :
  prepared_model initialized checkpoint_dir !! k = Some p ->
  requires_grad p = true <-> is_Some (adapter_v2_parameters !! k).
Proof.
  unfold prepared_model. rewrite lookup_mark_only. intros Hk.
  destruct (add_adapter_v2_parameters_to_linear_layers _ !! k) as [p0 |];
    [| discriminate].
  injection Hk as <-. cbn. apply bool_decide_eq_true.
Qed.

(** C2. In the model [main] hands to the optimizer and to fabric.setup,
    every weight of the loaded model that is not an adapter-v2 parameter
    is frozen, every adapter-v2 parameter is there and trainable, and
    nothing else is trainable; AdamW is built with one group holding
    exactly the parameters that require a gradient, which are the
    adapter-v2 parameters, with the learning rate and weight decay of the
    module; and that model and that optimizer are the ones the training
    starts from. *)
Theorem only_adapter_trainable (hp : hparams) (out_dir : path)
    initialized (checkpoint_dir : path) :
  let m := prepared_model initialized checkpoint_dir in
  (forall k v, initialized !! k = Some v ->
     adapter_v2_parameters !! k = None ->
     exists p, m !! k = Some p /\ requires_grad p = false) /\
  (forall k v, adapter_v2_parameters !! k = Some v ->
     m !! k = Some {| data := v; requires_grad := true |}) /\
  (forall k p, m !! k = Some p ->
     requires_grad p = true <-> is_Some (adapter_v2_parameters !! k)) /\
  (exists g, make_optimizer hp m = [g] /\
     pg_lr g = learning_rate hp /\ pg_weight_decay g = weight_decay hp /\
     pg_params g = dom adapter_v2_parameters /\
     forall k, k ∈ pg_params g <->
               exists p, m !! k = Some p /\ requires_grad p = true) /\
  (forall evs, main hp out_dir initialized checkpoint_dir = Ok evs ->
     is_ok (train hp out_dir m (make_optimizer hp m))).
Proof.
  intros m. split; [| split; [| split; [| split]]].
  - intros k v Hi Ha. eexists. split;
      [exact (lookup_prepared_model_base _ checkpoint_dir _ _ Hi Ha)
      | reflexivity].
  - intros k v Ha. exact (lookup_prepared_model_adapter _ _ _ _ Ha).
  - intros k p. apply requires_grad_prepared_model.
  - assert (Hin : forall k,
              k ∈ dom (filter (fun kp : string * param tensor =>
                                 requires_grad kp.2 = true) m) <->
              exists p, m !! k = Some p /\ requires_grad p = true).
    { intros k. rewrite elem_of_dom. split.
      - intros [p Hp]. apply map_lookup_filter_Some in Hp as [Hp Ht]. eauto.
      - intros (p & Hp & Ht). exists p. apply map_lookup_filter_Some. auto. }
    eexists. split; [reflexivity |]. cbn [pg_lr pg_weight_decay pg_params].
    split; [reflexivity |]. split; [reflexivity |]. split; [| exact Hin].
    apply set_eq. intros k. rewrite Hin, elem_of_dom. split.
    + intros (p & Hp & Ht).
      exact (proj1 (requires_grad_prepared_model _ _ _ _ Hp) Ht).
    + intros [v Hv]. eexists. split;
        [exact (lookup_prepared_model_adapter _ checkpoint_dir _ _ Hv)
        | reflexivity].
  - intros evs Hmain. unfold main in Hmain. fold m in Hmain.
    apply bind_Ok in Hmain as (r & Hr & _). exists r. exact Hr.
Qed.

(** C6. The weights come from checkpoint_dir / "lit_model.pth" and are
    loaded into the initialised model without strictness: a key of the
    model takes the checkpoint's value when the checkpoint has one and
    keeps its initialised value when it has none, and a key only the
    checkpoint has is dropped. The adapter-v2 parameters are added
    afterwards, so each holds the value it was created with, whatever
    the checkpoint file holds under its name. The model [main] trains
    has, for every other weight, the value so loaded, and the run of
    [main] is the training of that model, between the load and the
    final save. *)
Theorem load_before_adapter (hp : hparams) (out_dir : path)
    initialized (checkpoint_dir : path) :
  let checkpoint := lazy_load (path_join checkpoint_dir "lit_model.pth") in
  let loaded := loaded_model initialized checkpoint_dir in
  let m := prepared_model initialized checkpoint_dir in
  (forall k v w, initialized !! k = Some v -> checkpoint !! k = Some w ->
     data <$> loaded !! k = Some w) /\
  (forall k v, initialized !! k = Some v -> checkpoint !! k = None ->
     data <$> loaded !! k = Some v) /\
  (forall k, initialized !! k = None -> loaded !! k = None) /\
  (forall k v, adapter_v2_parameters !! k = Some v ->
     data <$> m !! k = Some v) /\
  (forall k v w, initialized !! k = Some v ->
     adapter_v2_parameters !! k = None -> checkpoint !! k = Some w ->
     data <$> m !! k = Some w) /\
  (forall k v, initialized !! k = Some v ->
     adapter_v2_parameters !! k = None -> checkpoint !! k = None ->
     data <$> m !! k = Some v) /\
  (forall k, initialized !! k = None -> adapter_v2_parameters !! k = None ->
     m !! k = None) /\
  (forall evs, main hp out_dir initialized checkpoint_dir = Ok evs ->
     exists r,
       train hp out_dir m (make_optimizer hp m) = Ok r /\
       evs = LoadCheckpoint (path_join checkpoint_dir "lit_model.pth")
             :: r.2 ++ [save_adapter_v2_checkpoint (model r.1)
                          (path_join out_dir
                             "lit_model_adapter_finetuned.pth")]).
Proof.
  intros checkpoint loaded m. subst loaded m.
  split; [| split; [| split; [| split; [| split; [| split; [| split]]]]]].
  - intros k v w Hi Hc. rewrite lookup_loaded_model, Hi. simpl.
    fold checkpoint. rewrite Hc. reflexivity.
  - intros k v Hi Hc. rewrite lookup_loaded_model, Hi. simpl.
    fold checkpoint. rewrite Hc. reflexivity.
  - intros k Hi. rewrite lookup_loaded_model, Hi. reflexivity.
  - intros k v Hk.
    rewrite (lookup_prepared_model_adapter _ _ _ _ Hk). reflexivity.
  - intros k v w Hi Ha Hc.
    rewrite (lookup_prepared_model_base _ _ _ _ Hi Ha). cbn.
    fold checkpoint. rewrite Hc. reflexivity.
  - intros k v Hi Ha Hc.
    rewrite (lookup_prepared_model_base _ _ _ _ Hi Ha). cbn.
    fold checkpoint. rewrite Hc. reflexivity.
  - intros k Hi Ha. unfold prepared_model.
    rewrite lookup_mark_only, (lookup_add_adapter_old _ _ Ha).
    rewrite lookup_loaded_model, Hi. reflexivity.
  - intros evs Hmain. unfold main in Hmain.
    apply bind_Ok in Hmain as (r & Hr & Hmain). exists r.
    split; [exact Hr |]. injection Hmain as <-. reflexivity.
Qed.

End ModelFacts.

(** ** The loss (train, lines 169-172) *)

Section LossFacts.

Context {tensor vec loss_t : Type} `{!Framework tensor vec loss_t}.

Implicit Types (logits : list (list (list vec))) (c : list (list vec)).
Implicit Types (targets : list (list Z)) (s : list vec) (t : list Z).

Lemma shift_logits_snoc logits c :
  shift_logits (logits ++ [c]) = Ok (logits ++ [drop_last_position c]).
Proof.
  unfold shift_logits. rewrite last_snoc, length_app. simpl.
  replace (Nat.pred (length logits + 1)) with (length logits + 0)%nat by lia.
  rewrite insert_app_r. reflexivity.
Qed.

Lemma shift_logits_ok logits :
  logits <> [] -> is_ok (shift_logits logits).
Proof.
  intros Hne. destruct (exists_last Hne) as (l & c & ->).
  rewrite shift_logits_snoc. eexists; reflexivity.
Qed.

Lemma iteration_loss_ok logits targets :
  logits <> [] -> is_ok (iteration_loss logits targets).
Proof.
  intros Hne. unfold iteration_loss.
  destruct (shift_logits_ok logits Hne) as [l' ->]. mstep.
  eexists; reflexivity.
Qed.

Lemma lookup_removelast s (n : nat) :
  (n < Nat.pred (length s))%nat -> removelast s !! n = s !! n.
Proof.
  destruct (decide (s = [])) as [-> | Hne]; [simpl; lia |].
  destruct (exists_last Hne) as (l & x & ->).
  rewrite removelast_last, length_app. simpl. intros Hn.
  rewrite lookup_app_l by lia. reflexivity.
Qed.

Lemma lookup_tl t (n : nat) : List.tl t !! n = t !! S n.
Proof. destruct t; reflexivity. Qed.

Lemma sequence_logits_snoc logits c (b : nat) :
  sequence_logits (logits ++ [c]) b
    = sequence_logits logits b ++ default [] (c !! b).
Proof.
  unfold sequence_logits. rewrite fmap_app, concat_app. simpl.
  rewrite app_nil_r. reflexivity.
Qed.

Lemma sequence_logits_drop_last logits c (b : nat) s :
  c !! b = Some s -> s <> [] ->
  sequence_logits (logits ++ [drop_last_position c]) b
    = removelast (sequence_logits (logits ++ [c]) b).
Proof.
  intros Hc Hs. rewrite !sequence_logits_snoc. unfold drop_last_position.
  rewrite list_lookup_fmap, Hc. simpl.
  rewrite removelast_app by exact Hs. reflexivity.
Qed.

End LossFacts.

(** ** One iteration of the loop *)

Section IterFacts.

Context {tensor vec loss_t : Type} `{!Framework tensor vec loss_t}.
Variable hp : hparams.
Variable out_dir : path.

Local Abbreviation train_state := (train_state (tensor := tensor)).
Local Abbreviation event := (event tensor loss_t).

Implicit Types (st : train_state) (evs : list event) (acc : bool).

(** Everything [train_iter] computed when it returned. *)
Lemma train_iter_inv st (iter_num : Z) st' evs :
  train_iter hp out_dir st iter_num = Ok (st', evs) ->
  let ix := if iter_num =? 0 then Some longest_seq_ix else None in
  exists groups acc loss lg do_val do_save,
    warmup hp st = Ok groups /\
    is_accumulating hp iter_num = Ok acc /\
    iteration_loss (gpt_forward (model st) (get_batch iter_num ix).1)
                   (get_batch iter_num ix).2 = Ok loss /\
    Py.mod_ iter_num (log_interval hp) = Ok lg /\
    due acc (step_count st') (eval_interval hp) = Ok do_val /\
    due acc (step_count st') (save_interval hp) = Ok do_save /\
    st' = state_after st groups acc /\
    evs = [GetBatch iter_num ix;
           Backward loss (gradient_accumulation_iters hp) acc]
          ++ (if acc then (if xla then [MarkStep] else [])
              else [OptimizerStep groups; ZeroGrad])
          ++ (if lg =? 0 then [Log iter_num (step_count st')] else [])
          ++ (if do_val then [Validate] else [])
          ++ (if do_save then
                [save_adapter_v2_checkpoint (model st')
                   (path_join out_dir (iter_ckpt_name iter_num))]
              else []).
Proof.
  intros H ix. unfold train_iter in H. fold ix in H.
  apply bind_Ok in H as (groups & Hw & H).
  apply bind_Ok in H as (acc & Ha & H).
  apply bind_Ok in H as (loss & Hl & H).
  apply bind_Ok in H as (lg & Hlg & H).
  apply bind_Ok in H as (do_val & Hv & H).
  apply bind_Ok in H as (do_save & Hs & H).
  cbv zeta in H. injection H as <- <-.
  exists groups, acc, loss, lg, do_val, do_save.
  repeat split; assumption.
Qed.

Lemma warmup_ok st :
  Qeq_bool (warmup_steps hp) 0 = false -> is_ok (warmup hp st).
Proof.
  intros Hw. unfold warmup, Py.fdiv. rewrite Hw.
  destruct (Qle_bool _ _); mstep; eexists; reflexivity.
Qed.

Lemma due_ok acc (n interval : Z) : interval <> 0 -> is_ok (due acc n interval).
Proof.
  intros Hi. unfold due, Py.mod_. destruct acc; [eexists; reflexivity |].
  destruct (Z.eqb_spec interval 0); [contradiction |]. mstep.
  eexists; reflexivity.
Qed.

Lemma due_spec acc (n interval : Z) (b : bool) :
  due acc n interval = Ok b ->
  b = negb acc && (n mod interval =? 0) /\ (acc = false -> interval <> 0).
Proof.
  unfold due, Py.mod_. destruct acc.
  - intros [= <-]. split; [reflexivity | discriminate].
  - destruct (Z.eqb_spec interval 0); [discriminate |]. mstep.
    intros [= <-]. split; [reflexivity | auto].
Qed.

Lemma hparams_ok_inv :
  hparams_ok hp = true ->
  Qeq_bool (gradient_accumulation_iters hp) 0 = false /\
  Qeq_bool (warmup_steps hp) 0 = false /\
  log_interval hp <> 0 /\ eval_interval hp <> 0 /\ save_interval hp <> 0.
Proof.
  unfold hparams_ok. rewrite !andb_true_iff, !negb_true_iff.
  intros ((((Hg & Hw) & Hl) & He) & Hs).
  repeat split; try assumption; apply Z.eqb_neq; assumption.
Qed.

(** With sound hyperparameters and a model that returns at least one
    chunk, the body of the loop runs to its end. *)
Lemma train_iter_ok st (iter_num : Z) :
  hparams_ok hp = true ->
  (forall m x, gpt_forward m x <> []) ->
  is_ok (train_iter hp out_dir st iter_num).
Proof.
  intros Hok Hfw. apply hparams_ok_inv in Hok as (Hg & Hw & Hl & He & Hs).
  unfold train_iter.
  destruct (warmup_ok st Hw) as [groups ->]. mstep.
  destruct (is_accumulating_ok hp iter_num Hg) as [acc ->]. mstep.
  destruct (iteration_loss_ok _
    (get_batch iter_num (if iter_num =? 0 then Some longest_seq_ix else None)).2
    (Hfw (model st)
      (get_batch iter_num (if iter_num =? 0 then Some longest_seq_ix else None)).1))
    as [loss ->]. mstep.
  unfold Py.mod_ at 1. destruct (Z.eqb_spec (log_interval hp) 0);
    [contradiction |]. mstep.
  match goal with |- context [due acc ?n (eval_interval hp)] =>
    destruct (due_ok acc n (eval_interval hp) He) as [dv ->] end. mstep.
  match goal with |- context [due acc ?n (save_interval hp)] =>
    destruct (due_ok acc n (save_interval hp) Hs) as [ds ->] end. mstep.
  eexists; reflexivity.
Qed.

End IterFacts.

Section IterClaims.

Context {tensor vec loss_t : Type} `{!Framework tensor vec loss_t}.
Variable hp : hparams.
Variable out_dir : path.

Local Abbreviation train_state := (train_state (tensor := tensor)).
Local Abbreviation event := (event tensor loss_t).

Implicit Types (st : train_state) (evs : list event) (acc : bool).

Hypothesis hp_ok : hparams_ok hp = true.
Hypothesis forward_chunks : forall m x, gpt_forward m x <> [].

(** The test of line 167, read off the modulo. *)
Lemma is_accumulating_false (iter_num : Z) acc :
  is_accumulating hp iter_num = Ok acc ->
  (acc = false <->
   exists r, Py.fmod (inject_Z (iter_num + 1))
               (gradient_accumulation_iters hp) = Ok r /\ (r == 0)%Q).
Proof.
  unfold is_accumulating. intros H.
  apply bind_Ok in H as (r & Hr & H). injection H as <-.
  rewrite negb_false_iff, Qeq_bool_iff. split.
  - intros E. exists r. auto.
  - intros (r' & Hr' & E). congruence.
Qed.

(** When the float is a whole number [g], it is the integer modulo. *)
Lemma is_accumulating_int (iter_num g : Z) acc :
  gradient_accumulation_iters hp = inject_Z g ->
  is_accumulating hp iter_num = Ok acc ->
  acc = negb ((iter_num + 1) mod g =? 0).
Proof.
  intros Hg H. unfold is_accumulating in H. rewrite Hg in H.
  assert (Hg0 : g <> 0).
  { intros ->. discriminate H. }
  destruct (fmod_int (iter_num + 1) g Hg0) as (r & Hr & E).
  rewrite Hr in H. injection H as <-. f_equal.
  destruct (Z.eqb_spec ((iter_num + 1) mod g) 0) as [E0 | E0].
  - apply Qeq_bool_iff. rewrite E, E0. reflexivity.
  - apply Qeq_bool_false. rewrite E. change 0%Q with (inject_Z 0).
    rewrite inject_Z_injective. exact E0.
Qed.

(** C3. An iteration of the loop runs to its end. It takes the backward
    pass once, on loss / gradient_accumulation_iters, with gradient
    sync suppressed exactly when it is accumulating. It calls
    optimizer.step() and then optimizer.zero_grad(), once, when
    (iter_num + 1) % gradient_accumulation_iters == 0, and neither of
    them otherwise; step_count goes up by one in the first case and
    stays in the second. *)
Theorem accumulate_then_step st (iter_num : Z) :
  let ix := if iter_num =? 0 then Some longest_seq_ix else None in
  exists st' evs acc loss,
    train_iter hp out_dir st iter_num = Ok (st', evs) /\
    is_accumulating hp iter_num = Ok acc /\
    (acc = false <->
     exists r, Py.fmod (inject_Z (iter_num + 1))
                 (gradient_accumulation_iters hp) = Ok r /\ (r == 0)%Q) /\
    (forall g, gradient_accumulation_iters hp = inject_Z g ->
               acc = false <-> (iter_num + 1) mod g = 0) /\
    iteration_loss (gpt_forward (model st) (get_batch iter_num ix).1)
                   (get_batch iter_num ix).2 = Ok loss /\
    List.filter is_backward evs
      = [Backward loss (gradient_accumulation_iters hp) acc] /\
    List.filter (fun e => is_optimizer_step e || is_zero_grad e) evs
      = (if acc then [] else [OptimizerStep (optimizer st'); ZeroGrad]) /\
    step_count st' = (if acc then step_count st else step_count st + 1).
Proof.
  intros ix.
  destruct (train_iter_ok hp out_dir st iter_num hp_ok forward_chunks)
    as [[st' evs] Hrun].
  destruct (train_iter_inv hp out_dir _ _ _ _ Hrun)
    as (groups & acc & loss & lg & dv & ds & Hw & Ha & Hl & _ & _ & _
        & -> & ->).
  exists (state_after st groups acc). eexists. exists acc, loss.
  split; [exact Hrun |]. split; [exact Ha |].
  split; [exact (is_accumulating_false _ _ Ha) |].
  split.
  { intros g Hg. rewrite (is_accumulating_int _ _ _ Hg Ha).
    rewrite negb_false_iff. apply Z.eqb_eq. }
  split; [exact Hl |].
  unfold save_adapter_v2_checkpoint, fabric_save, state_after.
  destruct acc, xla, (lg =? 0), dv, ds; repeat split; reflexivity.
Qed.

(** C5 for one iteration and for the call of [train]. Inside the loop,
    validate is called exactly when the iteration is not accumulating
    and step_count (already counted up) is a multiple of eval_interval,
    and a checkpoint named iter-{iter_num:06d}-ckpt.pth is saved into
    out_dir exactly when the iteration is not accumulating and
    step_count is a multiple of save_interval; an accumulating
    iteration does neither. [train] calls validate once before the
    loop. *)
Theorem validate_and_save_on_steps st (iter_num : Z) :
  (exists st' evs acc,
     train_iter hp out_dir st iter_num = Ok (st', evs) /\
     is_accumulating hp iter_num = Ok acc /\
     List.filter is_validate evs
       = (if negb acc && (step_count st' mod eval_interval hp =? 0)
          then [Validate] else []) /\
     List.filter is_save evs
       = (if negb acc && (step_count st' mod save_interval hp =? 0)
          then [Save (path_join out_dir
                        ("iter-" +:+ format_06d iter_num +:+ "-ckpt.pth"))
                     (filter (fun kv => adapter_filter kv.1 kv.2 = true)
                             (state_dict (model st')))]
          else [])) /\
  (forall model0 optimizer0 r,
     train hp out_dir model0 optimizer0 = Ok r ->
     exists r',
       train_loop hp out_dir (seqZ 0 (max_iters hp))
         {| step_count := 0; optimizer := optimizer0; model := model0 |}
         = Ok r' /\
       r.2 = Validate :: (if xla then [MarkStep] else []) ++ r'.2).
Proof.
  split.
  - destruct (train_iter_ok hp out_dir st iter_num hp_ok forward_chunks)
      as [[st' evs] Hrun].
    destruct (train_iter_inv hp out_dir _ _ _ _ Hrun)
      as (groups & acc & loss & lg & dv & ds & _ & Ha & _ & _ & Hv & Hs
          & Est & ->).
    exists st'. eexists. exists acc.
    split; [exact Hrun |]. split; [exact Ha |].
    apply due_spec in Hv as [-> _]. apply due_spec in Hs as [-> _].
    unfold save_adapter_v2_checkpoint, fabric_save, iter_ckpt_name.
    destruct acc, xla, (lg =? 0),
      (step_count st' mod eval_interval hp =? 0),
      (step_count st' mod save_interval hp =? 0); split; reflexivity.
  - intros model0 optimizer0 r Hr. unfold train in Hr.
    apply bind_Ok in Hr as (r' & Hr' & Hr). injection Hr as <-.
    exists r'. split; [exact Hr' | reflexivity].
Qed.

(** C7. The loss of an iteration is chunked_cross_entropy of the
    logits, the last chunk without its last time position, and of the
    targets without their first position. Position n of the shortened
    logits of a sequence is position n of the model's output, and
    position n of the shifted targets is token n + 1: output n is
    scored against token n + 1. That loss is the one the backward pass
    of the iteration is taken on. *)
Theorem loss_scores_next_token (logits : list (list (list vec)))
    (c : list (list vec)) (targets : list (list Z)) :
  iteration_loss (logits ++ [c]) targets
    = Ok (chunked_cross_entropy
            (logits ++ [removelast (A:=vec) <$> c])
            (List.tl <$> targets)) /\
  (forall (b n : nat) s, c !! b = Some s -> s <> [] ->
     let out := sequence_logits (logits ++ [c]) b in
     let out' := sequence_logits (logits ++ [removelast (A:=vec) <$> c]) b in
     length out' = Nat.pred (length out) /\
     ((n < length out')%nat -> out' !! n = out !! n)) /\
  (forall (b n : nat) t, targets !! b = Some t ->
     (List.tl <$> targets) !! b = Some (List.tl t) /\
     List.tl t !! n = t !! S n) /\
  (forall st (iter_num : Z) st' evs,
     train_iter hp out_dir st iter_num = Ok (st', evs) ->
     let ix := if iter_num =? 0 then Some longest_seq_ix else None in
     exists loss acc,
       iteration_loss (gpt_forward (model st) (get_batch iter_num ix).1)
                      (get_batch iter_num ix).2 = Ok loss /\
       List.filter is_backward evs
         = [Backward loss (gradient_accumulation_iters hp) acc]).
Proof.
  split; [| split; [| split]].
  - unfold iteration_loss. rewrite shift_logits_snoc. reflexivity.
  - intros b n s Hc Hs out out'. subst out out'.
    change (removelast (A:=vec) <$> c) with (drop_last_position c).
    rewrite (sequence_logits_drop_last logits c b s Hc Hs).
    assert (Hlen : forall l : list vec,
               length (removelast l) = Nat.pred (length l)).
    { intros l. destruct (decide (l = [])) as [-> | Hne]; [reflexivity |].
      destruct (exists_last Hne) as (l0 & x & ->).
      rewrite removelast_last, length_app. simpl. lia. }
    split; [apply Hlen |].
    intros Hn. apply lookup_removelast. rewrite <- Hlen. exact Hn.
  - intros b n t Ht. split; [| apply lookup_tl].
    rewrite list_lookup_fmap, Ht. reflexivity.
  - intros st iter_num st' evs Hrun ix.
    destruct (train_iter_inv hp out_dir _ _ _ _ Hrun)
      as (groups & acc & loss & lg & dv & ds & _ & _ & Hl & _ & _ & _
          & _ & ->).
    exists loss, acc. split; [exact Hl |].
    unfold save_adapter_v2_checkpoint, fabric_save.
    destruct acc, xla, (lg =? 0), dv, ds; reflexivity.
Qed.

End IterClaims.

(** ** The whole loop *)

Section LoopFacts.

Context {tensor vec loss_t : Type} `{!Framework tensor vec loss_t}.
Variable hp : hparams.
Variable out_dir : path.

Local Abbreviation train_state := (train_state (tensor := tensor)).
Local Abbreviation event := (event tensor loss_t).

Implicit Types (st : train_state) (evs tr : list event) (iters : list Z).

Lemma train_loop_cons (iter_num : Z) iters st st' tr :
  train_loop hp out_dir (iter_num :: iters) st = Ok (st', tr) ->
  exists st1 ev1 tr2,
    train_iter hp out_dir st iter_num = Ok (st1, ev1) /\
    train_loop hp out_dir iters st1 = Ok (st', tr2) /\
    tr = ev1 ++ tr2.
Proof.
  cbn [train_loop]. intros H.
  apply bind_Ok in H as ([st1 ev1] & H1 & H).
  apply bind_Ok in H as ([st2 tr2] & H2 & H).
  injection H as <- <-. exists st1, ev1, tr2. auto.
Qed.

Lemma train_loop_snoc iters (iter_num : Z) st st1 tr1 st' ev :
  train_loop hp out_dir iters st = Ok (st1, tr1) ->
  train_iter hp out_dir st1 iter_num = Ok (st', ev) ->
  train_loop hp out_dir (iters ++ [iter_num]) st = Ok (st', tr1 ++ ev).
Proof.
  revert st tr1. induction iters as [| i iters IH]; intros st tr1 H1 H2.
  - injection H1 as -> <-. cbn [app train_loop]. rewrite H2. mstep.
    cbn [fst snd]. rewrite app_nil_r. reflexivity.
  - apply train_loop_cons in H1 as (sa & ea & ta & Ha & Hb & ->).
    cbn [app train_loop]. rewrite Ha. mstep. cbn [fst snd].
    rewrite (IH _ _ Hb H2). mstep. cbn [fst snd].
    rewrite app_assoc. reflexivity.
Qed.

Lemma train_loop_snoc_inv iters (iter_num : Z) : forall st st' tr,
  train_loop hp out_dir (iters ++ [iter_num]) st = Ok (st', tr) ->
  exists st1 tr1 ev,
    train_loop hp out_dir iters st = Ok (st1, tr1) /\
    train_iter hp out_dir st1 iter_num = Ok (st', ev) /\
    tr = tr1 ++ ev.
Proof.
  induction iters as [| i iters IH]; intros st st' tr H.
  - apply train_loop_cons in H as (st1 & ev1 & tr2 & H1 & H2 & ->).
    injection H2 as <- <-. exists st, [], ev1.
    rewrite app_nil_r. auto.
  - cbn [app] in H.
    apply train_loop_cons in H as (sa & ea & ta & Ha & Hb & ->).
    destruct (IH _ _ _ Hb) as (st1 & tr1 & ev & H1 & H2 & ->).
    exists st1, (ea ++ tr1), ev. split; [| split; [exact H2 |]].
    + cbn [train_loop]. rewrite Ha. mstep. cbn [fst snd]. rewrite H1.
      reflexivity.
    + rewrite app_assoc. reflexivity.
Qed.

(** A property of states that every iteration keeps, and a property of
    events that every iteration's events have, hold of the loop. *)
Lemma train_loop_invariant (I : train_state -> Prop) (P : event -> Prop) :
  (forall st (iter_num : Z) st' evs,
     I st -> train_iter hp out_dir st iter_num = Ok (st', evs) ->
     I st' /\ Forall P evs) ->
  forall iters st st' tr,
    I st -> train_loop hp out_dir iters st = Ok (st', tr) ->
    I st' /\ Forall P tr.
Proof.
  intros Hstep. induction iters as [| i iters IH]; intros st st' tr HI H.
  - injection H as <- <-. split; [exact HI | constructor].
  - apply train_loop_cons in H as (st1 & ev1 & tr2 & H1 & H2 & ->).
    destruct (Hstep _ _ _ _ HI H1) as [HI1 HP1].
    destruct (IH _ _ _ HI1 H2) as [HI2 HP2].
    split; [exact HI2 |]. apply Forall_app. auto.
Qed.

Lemma train_loop_ok iters st :
  hparams_ok hp = true -> (forall m x, gpt_forward m x <> []) ->
  is_ok (train_loop hp out_dir iters st).
Proof.
  intros Hok Hfw. revert st.
  induction iters as [| i iters IH]; intros st.
  - eexists; reflexivity.
  - cbn [train_loop].
    destruct (train_iter_ok hp out_dir st i Hok Hfw) as [[st1 ev1] ->].
    mstep. cbn [fst snd]. destruct (IH st1) as [[st2 tr2] ->]. mstep.
    eexists; reflexivity.
Qed.

Lemma train_ok model0 optimizer0 :
  hparams_ok hp = true -> (forall m x, gpt_forward m x <> []) ->
  is_ok (train hp out_dir model0 optimizer0).
Proof.
  intros Hok Hfw. unfold train.
  destruct (train_loop_ok (seqZ 0 (max_iters hp))
              {| step_count := 0; optimizer := optimizer0; model := model0 |}
              Hok Hfw) as [r ->].
  mstep. eexists; reflexivity.
Qed.

(** *** What is saved *)

Lemma fabric_save_adapter_only (m : gmap string (param tensor)) (p : path) :
  saves_adapter_only (save_adapter_v2_checkpoint m p).
Proof.
  unfold save_adapter_v2_checkpoint, fabric_save. cbn [saves_adapter_only].
  intros k v Hk. apply map_lookup_filter_Some in Hk as [_ Hf]. exact Hf.
Qed.

Lemma saves_to_iter_ckpt (m : gmap string (param tensor)) (iter_num : Z) :
  saves_to (path_join out_dir final_ckpt_name)
    (save_adapter_v2_checkpoint m (path_join out_dir (iter_ckpt_name iter_num)))
  = false.
Proof.
  unfold save_adapter_v2_checkpoint, fabric_save. cbn [saves_to].
  apply bool_decide_eq_false. intros E. apply path_join_inj in E.
  exact (iter_ckpt_name_not_final _ E).
Qed.

(** The events of one iteration: only adapter entries are written, and
    nothing is written to the final checkpoint's path. *)
Lemma train_iter_saves st (iter_num : Z) st' evs :
  train_iter hp out_dir st iter_num = Ok (st', evs) ->
  Forall (fun e => saves_adapter_only e /\
                   saves_to (path_join out_dir final_ckpt_name) e = false)
         evs.
Proof.
  intros Hrun.
  destruct (train_iter_inv hp out_dir _ _ _ _ Hrun)
    as (groups & acc & loss & lg & dv & ds & _ & _ & _ & _ & _ & _
        & _ & ->).
  pose proof (fabric_save_adapter_only (model st')
                (path_join out_dir (iter_ckpt_name iter_num))) as Hs.
  pose proof (saves_to_iter_ckpt (model st') iter_num) as Hp.
  destruct acc, xla, (lg =? 0), dv, ds; cbn [app];
    repeat (apply Forall_cons; split;
            [first [ split; [exact I | reflexivity]
                   | split; [exact Hs | exact Hp] ] |]);
    apply Forall_nil_2.
Qed.

Lemma filter_none {A : Type} (f : A -> bool) (l : list A) :
  Forall (fun x => f x = false) l -> List.filter f l = [].
Proof.
  induction 1 as [| x l Hx _ IH]; [reflexivity |].
  cbn [List.filter]. rewrite Hx. exact IH.
Qed.

(** C1. [main] runs to its end; the last thing it does is to save the
    checkpoint out_dir / "lit_model_adapter_finetuned.pth", and that is
    the only write to that path; every checkpoint of the run, periodic
    or final, holds only entries that adapter_filter selects, so no
    other weight of the model is written. *)
Theorem checkpoints_hold_adapter_only
    (initialized : gmap string tensor) (checkpoint_dir : path) :
  hparams_ok hp = true -> (forall m x, gpt_forward m x <> []) ->
  let final := path_join out_dir "lit_model_adapter_finetuned.pth" in
  exists evs tr content,
    main hp out_dir initialized checkpoint_dir = Ok evs /\
    evs = tr ++ [Save final content] /\
    List.filter (saves_to final) evs = [Save final content] /\
    Forall saves_adapter_only evs /\
    (forall p c k v, Save p c ∈ evs -> c !! k = Some v ->
                     adapter_filter k v = true).
Proof.
  intros Hok Hfw final. unfold main.
  set (m0 := prepared_model initialized checkpoint_dir).
  destruct (train_ok m0 (make_optimizer hp m0) Hok Hfw) as [[st tr] Htrain].
  rewrite Htrain. mstep. cbn [fst snd].
  unfold train in Htrain.
  apply bind_Ok in Htrain as ([st1 tr1] & Hloop & Htrain).
  cbn [fst snd] in Htrain. injection Htrain as -> <-.
  destruct (train_loop_invariant (fun _ => True)
              (fun e => saves_adapter_only e /\
                        saves_to final e = false)
              (fun s i s' e _ H => conj I (train_iter_saves s i s' e H))
              _ _ _ _ I Hloop) as [_ HP].
  assert (Hall : Forall (fun e => saves_adapter_only e /\
                                  saves_to final e = false)
                   ([LoadCheckpoint (path_join checkpoint_dir "lit_model.pth")]
                    ++ [Validate] ++ (if xla then [MarkStep] else []) ++ tr1)).
  { apply Forall_app. split; [repeat constructor |].
    apply Forall_app. split; [repeat constructor |].
    apply Forall_app. split; [destruct xla; repeat constructor | exact HP]. }
  set (pre := [LoadCheckpoint (path_join checkpoint_dir "lit_model.pth")]
              ++ [Validate] ++ (if xla then [MarkStep] else []) ++ tr1)
    in Hall |- *.
  set (content := filter (fun kv => adapter_filter kv.1 kv.2 = true)
                    (state_dict (model st))).
  assert (Hfinal : saves_adapter_only (Save (loss_t := loss_t) final content))
    by apply (fabric_save_adapter_only (model st) final).
  assert (Hsaves : Forall saves_adapter_only (pre ++ [Save final content])).
  { apply Forall_app. split.
    - eapply Forall_impl; [exact Hall |]. intros e [He _]. exact He.
    - repeat constructor. exact Hfinal. }
  exists (pre ++ [Save final content]), pre, content.
  split; [reflexivity |]. split; [reflexivity |]. split; [| split].
  - rewrite List.filter_app, filter_none.
    + cbn [List.filter saves_to app].
      rewrite bool_decide_eq_true_2 by reflexivity. reflexivity.
    + eapply Forall_impl; [exact Hall |]. intros e [_ He]. exact He.
  - exact Hsaves.
  - intros p c k v Hin Hk. rewrite Forall_forall in Hsaves.
    exact (Hsaves _ Hin k v Hk).
Qed.

End LoopFacts.

(** ** Doubles *)

(** [round64] against the arithmetic of the machine, at the numbers of
    the script: the literals, and line 157 at the last warmup step of
    the file (781) and at 3. *)
Module MachineCheck.

Import PrimFloat.

Example round64_literals :
  Some (round64 (3 # 1000)) = Q_of_float 0x1.89374bc6a7efap-9%float /\
  Some (round64 (2 # 100)) = Q_of_float 0x1.47ae147ae147bp-6%float.
Proof. split; vm_compute; reflexivity. Qed.

Example warmup_rate_machine :
  Some (warmup_rate (round64 (3 # 1000)) 781 781)
    = Q_of_float (0x1.89374bc6a7efap-9 * 781 / 781)%float /\
  Some (warmup_rate (round64 (3 # 1000)) 3 3)
    = Q_of_float (0x1.89374bc6a7efap-9 * 3 / 3)%float /\
  Some (warmup_rate (round64 (3 # 1000)) 390 781)
    = Q_of_float (0x1.89374bc6a7efap-9 * 390 / 781)%float.
Proof. repeat split; vm_compute; reflexivity. Qed.

End MachineCheck.

Lemma round64_zero (x : Q) : (x == 0)%Q -> round64 x = 0%Q.
Proof.
  intros E. unfold round64. rewrite (proj2 (Qeq_bool_iff _ _) E). reflexivity.
Qed.

(** At step 0 the rate is 0, whatever the learning rate. *)
Lemma warmup_rate_0 (lr ws : Q) : warmup_rate lr 0 ws = 0%Q.
Proof.
  unfold warmup_rate, Py.fmul, Py.of_int.
  rewrite (round64_zero (inject_Z 0)) by reflexivity.
  rewrite (round64_zero (lr * 0)) by apply Qmult_0_r.
  apply round64_zero. unfold Qdiv. apply Qmult_0_l.
Qed.

(** With the constants of the file the rate of the last warmup step is
    the learning rate itself: the two roundings of line 157 cancel. *)
Lemma source_warmup_exact (h : hparams) :
  module_init source_literals = Ok h ->
  warmup_steps h = inject_Z 781 /\
  (warmup_rate (learning_rate h) 781 (warmup_steps h) == learning_rate h)%Q.
Proof.
  intros [= <-]. split; [reflexivity |]. vm_compute. reflexivity.
Qed.

(** They do not cancel for every number of warmup steps: with three of
    them the rate ends one unit in the last place above 0.003. *)
Example warmup_rate_inexact :
  ~ (warmup_rate (round64 (3 # 1000)) 3 3 == round64 (3 # 1000))%Q.
Proof. vm_compute. discriminate. Qed.

(** ** The warmup (train, lines 155-159) *)

Section WarmupFacts.

Context {tensor vec loss_t : Type} `{!Framework tensor vec loss_t}.
Variable hp : hparams.
Variable out_dir : path.

Local Abbreviation train_state := (train_state (tensor := tensor)).
Local Abbreviation event := (event tensor loss_t).

Implicit Types (st : train_state) (evs tr : list event) (iters : list Z).
Implicit Types (groups : list param_group).

(** The learning rate line 157 computes at a given [step_count]. *)
Local Abbreviation lr_at n :=
  (warmup_rate (learning_rate hp) n (warmup_steps hp)).

Lemma warmup_during st :
  (inject_Z (step_count st) <= warmup_steps hp)%Q ->
  ~ (warmup_steps hp == 0)%Q ->
  warmup hp st = Ok (set_lr (lr_at (step_count st)) <$> optimizer st).
Proof.
  intros Hle Hws. unfold warmup, Py.fdiv.
  rewrite (proj2 (Qle_bool_iff _ _) Hle).
  rewrite (proj2 (Qeq_bool_false _ _) Hws). reflexivity.
Qed.

Lemma warmup_after st :
  (warmup_steps hp < inject_Z (step_count st))%Q ->
  warmup hp st = Ok (optimizer st).
Proof.
  intros Hlt. unfold warmup.
  destruct (Qle_bool _ _) eqn:E; [| reflexivity].
  apply Qle_bool_iff in E. exfalso. exact (Qlt_not_le _ _ Hlt E).
Qed.

Lemma warmup_inv st groups :
  warmup hp st = Ok groups ->
  ((inject_Z (step_count st) <= warmup_steps hp)%Q /\
   groups = set_lr (lr_at (step_count st)) <$> optimizer st) \/
  ((warmup_steps hp < inject_Z (step_count st))%Q /\ groups = optimizer st).
Proof.
  unfold warmup, Py.fdiv. destruct (Qle_bool _ _) eqn:E.
  - destruct (Qeq_bool (warmup_steps hp) 0); [discriminate |].
    intros [= <-]. left. split; [apply Qle_bool_iff; exact E | reflexivity].
  - intros [= <-]. right. split; [| reflexivity].
    apply Qnot_le_lt. intros Hle. apply Qle_bool_iff in Hle. congruence.
Qed.

Lemma Forall_set_lr (lr : Q) groups :
  Forall (fun g => pg_lr g = lr) (set_lr lr <$> groups).
Proof. apply Forall_fmap, Forall_true. intros g. reflexivity. Qed.

(** Past the warmup the learning rate is the one the last warmup step
    set, the step with [step_count = warmup_steps]: every iteration
    keeps that, when [warmup_steps] is a whole number. *)
Lemma past_warmup_invariant (w : Z) :
  warmup_steps hp = inject_Z w ->
  forall st (iter_num : Z) st' evs,
    ((warmup_steps hp < inject_Z (step_count st))%Q ->
     Forall (fun g => pg_lr g = lr_at w) (optimizer st)) ->
    train_iter hp out_dir st iter_num = Ok (st', evs) ->
    ((warmup_steps hp < inject_Z (step_count st'))%Q ->
     Forall (fun g => pg_lr g = lr_at w) (optimizer st'))
    /\ Forall (fun _ => True) evs.
Proof.
  intros Hw st i st' evs HI Hrun. split; [| apply Forall_true; auto].
  destruct (train_iter_inv hp out_dir _ _ _ _ Hrun)
    as (groups & acc & _ & _ & _ & _ & Hwarm & _ & _ & _ & _ & _ & -> & _).
  intros Hlt.
  assert (Hopt : optimizer (state_after st groups acc) = groups)
    by (destruct acc; reflexivity).
  rewrite Hopt.
  destruct (warmup_inv _ _ Hwarm) as [[Hle ->] | [Hgt ->]].
  - (* the last warmup iteration: step_count = warmup_steps *)
    assert (Hsc : step_count st = w).
    { rewrite Hw in Hle, Hlt. rewrite <- Zle_Qle in Hle.
      rewrite <- Zlt_Qlt in Hlt. destruct acc; cbn in Hlt; lia. }
    rewrite Hsc. apply Forall_set_lr.
  - apply HI. exact Hgt.
Qed.

(** C4. Along a run that starts from the optimizer [main] builds, with
    the hyperparameters of the module and warmup_steps > 0. At the start
    of an iteration with step_count <= warmup_steps the learning rate of
    every param group is set to learning_rate * step_count /
    warmup_steps, as doubles compute it; that is 0 at step 0. At the
    start of an iteration with step_count > warmup_steps the param
    groups are left as they are, and their learning rate is the one set
    at step_count = warmup_steps. With the constants of the file that
    rate is learning_rate itself, so from then on the learning rate is
    learning_rate. The groups after the warmup are those the iteration
    ends with. *)
Theorem linear_warmup (l : literals) (model0 : gmap string (param tensor))
    iters st tr :
  module_init l = Ok hp ->
  (0 < warmup_steps hp)%Q ->
  train_loop hp out_dir iters
    {| step_count := 0; optimizer := make_optimizer hp model0;
       model := model0 |} = Ok (st, tr) ->
  ((inject_Z (step_count st) <= warmup_steps hp)%Q ->
     exists groups,
       warmup hp st = Ok groups /\
       length groups = length (optimizer st) /\
       Forall (fun g => pg_lr g = lr_at (step_count st)) groups) /\
  ((warmup_steps hp < inject_Z (step_count st))%Q ->
     warmup hp st = Ok (optimizer st) /\
     exists w : Z,
       warmup_steps hp = inject_Z w /\
       Forall (fun g => pg_lr g = lr_at w) (optimizer st)) /\
  (l = source_literals ->
     (lr_at 781 == learning_rate hp)%Q /\
     ((warmup_steps hp < inject_Z (step_count st))%Q ->
      Forall (fun g => (pg_lr g == learning_rate hp)%Q) (optimizer st))) /\
  lr_at 0 = 0%Q /\
  (forall (iter_num : Z) st' evs groups,
     train_iter hp out_dir st iter_num = Ok (st', evs) ->
     warmup hp st = Ok groups -> optimizer st' = groups).
Proof.
  intros Hinit Hpos Hloop.
  assert (Hnz : ~ (warmup_steps hp == 0)%Q).
  { intros E. rewrite E in Hpos. exact (Qlt_irrefl _ Hpos). }
  pose proof (module_init_Ok l hp Hinit) as (_ & _ & _ & _ & _ & _ & w & Hw).
  assert (Hpast : (warmup_steps hp < inject_Z (step_count st))%Q ->
                  Forall (fun g => pg_lr g = lr_at w) (optimizer st)).
  { eapply (train_loop_invariant hp out_dir
              (fun s => (warmup_steps hp < inject_Z (step_count s))%Q ->
                        Forall (fun g => pg_lr g = lr_at w) (optimizer s))
              (fun _ => True) (past_warmup_invariant w Hw)); [| exact Hloop].
    cbn [step_count]. intros Hlt. exfalso.
    exact (Qlt_irrefl _ (Qlt_trans _ _ _ Hpos Hlt)). }
  split; [| split; [| split; [| split]]].
  - intros Hle. eexists. split; [apply warmup_during; assumption |].
    split; [apply length_fmap | apply Forall_set_lr].
  - intros Hlt. split; [apply warmup_after; assumption |].
    exists w. split; [exact Hw | exact (Hpast Hlt)].
  - intros ->. destruct (source_warmup_exact hp Hinit) as [Hw' Hex].
    split; [exact Hex |]. intros Hlt.
    assert (w = 781).
    { rewrite Hw in Hw'. unfold inject_Z in Hw'. congruence. }
    subst w. eapply Forall_impl; [exact (Hpast Hlt) |].
    intros g ->. exact Hex.
  - apply warmup_rate_0.
  - intros i st' evs groups Hrun Hwarm.
    destruct (train_iter_inv hp out_dir _ _ _ _ Hrun)
      as (groups' & acc & _ & _ & _ & _ & Hwarm' & _ & _ & _ & _ & _
          & -> & _).
    rewrite Hwarm in Hwarm'. injection Hwarm' as <-.
    destruct acc; reflexivity.
Qed.

(** *** The first optimizer step *)

Lemma first_optimizer_step_app evs tr :
  first_optimizer_step (evs ++ tr) =
    match first_optimizer_step evs with
    | Some g => Some g
    | None => first_optimizer_step tr
    end.
Proof.
  induction evs as [| e evs IH]; [reflexivity |].
  destruct e; cbn [app first_optimizer_step]; auto.
Qed.

(** The first step of one iteration. *)
Lemma train_iter_first_step st (iter_num : Z) st' evs :
  train_iter hp out_dir st iter_num = Ok (st', evs) ->
  exists groups acc,
    warmup hp st = Ok groups /\
    is_accumulating hp iter_num = Ok acc /\
    st' = state_after st groups acc /\
    first_optimizer_step evs = if acc then None else Some groups.
Proof.
  intros Hrun.
  destruct (train_iter_inv hp out_dir _ _ _ _ Hrun)
    as (groups & acc & loss & lg & dv & ds & Hw & Ha & _ & _ & _ & _
        & Hst & ->).
  exists groups, acc. repeat split; try assumption.
  unfold save_adapter_v2_checkpoint, fabric_save.
  destruct acc, xla, (lg =? 0), dv, ds; reflexivity.
Qed.

Lemma first_step_zero_lr iters : forall st st' tr groups,
  (0 < warmup_steps hp)%Q ->
  step_count st = 0 ->
  train_loop hp out_dir iters st = Ok (st', tr) ->
  first_optimizer_step tr = Some groups ->
  Forall (fun g => (pg_lr g == 0)%Q) groups.
Proof.
  induction iters as [| i iters IH]; intros st st' tr groups Hws Hsc Hloop Hfirst.
  - injection Hloop as <- <-. discriminate.
  - apply train_loop_cons in Hloop as (st1 & ev1 & tr2 & H1 & H2 & ->).
    rewrite first_optimizer_step_app in Hfirst.
    destruct (train_iter_first_step _ _ _ _ H1)
      as (g1 & acc & Hwarm & _ & Hst1 & Hf1).
    rewrite Hf1 in Hfirst. destruct acc.
    + apply (IH st1 st' tr2 groups Hws); [| exact H2 | exact Hfirst].
      rewrite Hst1. cbn. exact Hsc.
    + injection Hfirst as <-.
      destruct (warmup_inv _ _ Hwarm) as [[_ ->] | [Hgt _]].
      * eapply Forall_impl; [apply Forall_set_lr |].
        intros g ->. rewrite Hsc, warmup_rate_0. reflexivity.
      * exfalso. rewrite Hsc in Hgt.
        exact (Qlt_irrefl _ (Qlt_trans _ _ _ Hws Hgt)).
Qed.

(** Before iteration [g - 1] no step is taken. *)
Lemma no_step_before (g : Z) (n : nat) : forall st st' tr,
  gradient_accumulation_iters hp = inject_Z g ->
  Z.of_nat n < g ->
  train_loop hp out_dir (seqZ 0 (Z.of_nat n)) st = Ok (st', tr) ->
  step_count st' = step_count st /\ first_optimizer_step tr = None.
Proof.
  induction n as [| n IH]; intros st st' tr Hg Hn Hloop.
  - injection Hloop as <- <-. split; reflexivity.
  - rewrite seqZ_S in Hloop.
    destruct (train_loop_snoc_inv hp out_dir _ _ _ _ _ Hloop)
      as (s1 & t1 & ev & Hp & Hi & ->).
    destruct (IH _ _ _ Hg ltac:(lia) Hp) as [Hsc Hnone].
    rewrite Z.add_0_l in Hi.
    destruct (train_iter_first_step _ _ _ _ Hi)
      as (g1 & acc & _ & Hacc & -> & Hf1).
    rewrite (is_accumulating_int hp _ g _ Hg Hacc) in Hf1 |- *.
    assert (Hmod : ((Z.of_nat n + 1) mod g =? 0) = false).
    { apply Z.eqb_neq. rewrite Z.mod_small by lia. lia. }
    rewrite Hmod in Hf1 |- *. cbn [negb state_after step_count] in *.
    split; [exact Hsc |].
    rewrite first_optimizer_step_app, Hnone. exact Hf1.
Qed.

(** C9. With warmup_steps > 0 and gradient_accumulation_iters > 0, the
    first optimizer.step() of a run runs with learning rate 0 in every
    param group. While fewer than gradient_accumulation_iters
    iterations are done, step_count is still 0 and no step has been
    taken; iteration gradient_accumulation_iters - 1 is a stepping
    one. *)
Theorem first_step_has_zero_lr (model0 : gmap string (param tensor))
    (optimizer0 : list param_group) :
  (0 < warmup_steps hp)%Q ->
  (0 < gradient_accumulation_iters hp)%Q ->
  let st0 := {| step_count := 0; optimizer := optimizer0;
                model := model0 |} in
  (forall iters st tr groups,
     train_loop hp out_dir iters st0 = Ok (st, tr) ->
     first_optimizer_step tr = Some groups ->
     Forall (fun g => (pg_lr g == 0)%Q) groups) /\
  (forall (g n : Z) st tr,
     gradient_accumulation_iters hp = inject_Z g ->
     0 <= n < g ->
     train_loop hp out_dir (seqZ 0 n) st0 = Ok (st, tr) ->
     step_count st = 0 /\ first_optimizer_step tr = None) /\
  (forall g : Z,
     gradient_accumulation_iters hp = inject_Z g ->
     is_accumulating hp (g - 1) = Ok false).
Proof.
  intros Hws Hgai st0. split; [| split].
  - intros iters st tr groups Hloop Hfirst.
    exact (first_step_zero_lr iters st0 st tr groups Hws eq_refl Hloop Hfirst).
  - intros g n st tr Hg Hn Hloop.
    rewrite <- (Z2Nat.id n) in Hloop by lia.
    apply (no_step_before g (Z.to_nat n) st0 st tr Hg); [lia | exact Hloop].
  - intros g Hg.
    destruct (is_accumulating_ok hp (g - 1) (Qpos_nonzero _ Hgai))
      as [acc Hacc].
    rewrite Hacc. f_equal.
    rewrite (is_accumulating_int hp _ g _ Hg Hacc).
    replace (g - 1 + 1) with g by lia.
    assert (Hg0 : g <> 0).
    { intros ->. rewrite Hg in Hgai. exact (Qlt_irrefl _ Hgai). }
    rewrite Z.mod_same by exact Hg0. reflexivity.
Qed.

End WarmupFacts.

(** ** The small run, checked *)

Module DemoFacts.

Import Demo.

Lemma demo_init : module_init demo_literals = Ok demo_hparams.
Proof. reflexivity. Qed.

Lemma demo_ok : hparams_ok demo_hparams = true.
Proof. reflexivity. Qed.

Lemma demo_forward (m : gmap string (param Z)) (x : list (list Z)) :
  gpt_forward m x <> [].
Proof. discriminate. Qed.

(** The run of [main]: three steps, at rate 0, at half the learning rate
    and at the learning rate; one periodic checkpoint, after the third
    step, and the final one. *)
Example demo_main_steps :
  (step_lrs <$> match main demo_hparams demo_out_dir initialized
                        demo_checkpoint_dir with
                | Ok evs => Some evs
                | Raise _ => None
                end)
  = Some [[0%Q]; [warmup_rate (round64 (3 # 1000)) 1 2];
          [round64 (3 # 1000)]].
Proof. vm_compute. reflexivity. Qed.

Example demo_main_saves :
  (save_paths <$> match main demo_hparams demo_out_dir initialized
                          demo_checkpoint_dir with
                  | Ok evs => Some evs
                  | Raise _ => None
                  end)
  = Some [ ["out"; "adapter_v2"; "alpaca"; "iter-000005-ckpt.pth"];
           ["out"; "adapter_v2"; "alpaca";
            "lit_model_adapter_finetuned.pth"] ]%string.
Proof. vm_compute. reflexivity. Qed.

Lemma demo_wte : demo_model !! "wte"%string
                 = Some {| data := 7; requires_grad := false |}.
Proof. vm_compute. reflexivity. Qed.

End DemoFacts.

Lemma checkpoints_hold_adapter_only_witness :
  hparams_ok Demo.demo_hparams = true /\
  exists evs tr content,
    main Demo.demo_hparams Demo.demo_out_dir Demo.initialized
      Demo.demo_checkpoint_dir = Ok evs /\
    evs = tr ++ [Save (path_join Demo.demo_out_dir
                         "lit_model_adapter_finetuned.pth") content] /\
    Forall saves_adapter_only evs.
Proof.
  split; [reflexivity |].
  destruct (checkpoints_hold_adapter_only Demo.demo_hparams Demo.demo_out_dir
              Demo.initialized Demo.demo_checkpoint_dir
              eq_refl DemoFacts.demo_forward)
    as (evs & tr & content & Hmain & Hevs & _ & Hall & _).
  exists evs, tr, content. auto.
Defined.

Lemma only_adapter_trainable_witness :
  (exists p, Demo.demo_model !! "wte"%string = Some p /\
             requires_grad p = false) /\
  Demo.demo_model !! "adapter_scale"%string
    = Some {| data := 1; requires_grad := true |} /\
  exists g,
    make_optimizer Demo.demo_hparams Demo.demo_model = [g] /\
    pg_params g = dom (adapter_v2_parameters (tensor := Z)).
Proof.
  destruct (only_adapter_trainable Demo.demo_hparams Demo.demo_out_dir
              Demo.initialized Demo.demo_checkpoint_dir)
    as (H1 & H2 & _ & (g & Hg & _ & _ & Hp & _) & _).
  split; [| split].
  - apply (H1 "wte"%string 1); vm_compute; reflexivity.
  - apply H2. vm_compute. reflexivity.
  - exists g. split; [exact Hg | exact Hp].
Defined.

Lemma accumulate_then_step_witness :
  hparams_ok Demo.demo_hparams = true /\
  exists st' evs,
    train_iter Demo.demo_hparams Demo.demo_out_dir Demo.demo_start 1
      = Ok (st', evs) /\
    step_count st' = 1 /\
    List.filter (fun e => is_optimizer_step e || is_zero_grad e) evs
      = [OptimizerStep (optimizer st'); ZeroGrad].
Proof.
  split; [reflexivity |].
  destruct (accumulate_then_step Demo.demo_hparams Demo.demo_out_dir
              eq_refl DemoFacts.demo_forward Demo.demo_start 1)
    as (st' & evs & acc & loss & Hrun & Hacc & _ & _ & _ & _ & Hstep & Hsc).
  assert (E : acc = false) by (vm_compute in Hacc; congruence).
  subst acc. exists st', evs. auto.
Defined.

Lemma linear_warmup_witness :
  exists h st tr,
    module_init source_literals = Ok h /\
    (0 < warmup_steps h)%Q /\
    train_loop h Demo.demo_out_dir (seqZ 0 3)
      {| step_count := 0; optimizer := make_optimizer h Demo.demo_model;
         model := Demo.demo_model |} = Ok (st, tr) /\
    (warmup_rate (learning_rate h) 781 (warmup_steps h) == learning_rate h)%Q
    /\
    ((warmup_steps h < inject_Z (step_count st))%Q ->
     Forall (fun g => (pg_lr g == learning_rate h)%Q) (optimizer st)).
Proof.
  destruct (module_init source_literals) as [h | e] eqn:Hinit;
    [| vm_compute in Hinit; discriminate Hinit].
  assert (Hpos : (0 < warmup_steps h)%Q).
  { rewrite (proj1 (source_warmup_exact h Hinit)). reflexivity. }
  destruct (train_loop_ok h Demo.demo_out_dir (seqZ 0 3)
              {| step_count := 0; optimizer := make_optimizer h Demo.demo_model;
                 model := Demo.demo_model |}
              (source_hparams_ok h Hinit) DemoFacts.demo_forward)
    as [[st tr] Hloop].
  exists h, st, tr. split; [reflexivity |]. split; [exact Hpos |].
  split; [exact Hloop |].
  exact (proj1 (proj2 (proj2
           (linear_warmup h Demo.demo_out_dir source_literals Demo.demo_model
              (seqZ 0 3) st tr Hinit Hpos Hloop))) eq_refl).
Defined.

Lemma validate_and_save_on_steps_witness :
  hparams_ok Demo.demo_hparams = true /\
  exists st' evs,
    train_iter Demo.demo_hparams Demo.demo_out_dir Demo.demo_start 0
      = Ok (st', evs) /\
    List.filter is_validate evs = [] /\ List.filter is_save evs = [].
Proof.
  split; [reflexivity |].
  destruct (validate_and_save_on_steps Demo.demo_hparams Demo.demo_out_dir
              eq_refl DemoFacts.demo_forward Demo.demo_start 0)
    as ((st' & evs & acc & Hrun & Hacc & Hval & Hsave) & _).
  assert (E : acc = true) by (vm_compute in Hacc; congruence).
  subst acc. exists st', evs. auto.
Defined.

Lemma load_before_adapter_witness :
  data <$> loaded_model Demo.initialized Demo.demo_checkpoint_dir
             !! "wte"%string = Some 7 /\
  data <$> loaded_model Demo.initialized Demo.demo_checkpoint_dir
             !! "gating_factor"%string = Some 2 /\
  loaded_model Demo.initialized Demo.demo_checkpoint_dir
    !! "unexpected"%string = None /\
  data <$> Demo.demo_model !! "adapter_bias"%string = Some 0 /\
  data <$> Demo.demo_model !! "wte"%string = Some 7 /\
  data <$> Demo.demo_model !! "gating_factor"%string = Some 2 /\
  Demo.demo_model !! "unexpected"%string = None.
Proof.
  destruct (load_before_adapter Demo.demo_hparams Demo.demo_out_dir
              Demo.initialized Demo.demo_checkpoint_dir)
    as (H1 & H2 & H3 & H4 & H5 & H6 & H7 & _).
  split; [| split; [| split; [| split; [| split; [| split]]]]].
  - apply (H1 "wte"%string 1 7); vm_compute; reflexivity.
  - apply (H2 "gating_factor"%string 2); vm_compute; reflexivity.
  - apply H3. vm_compute. reflexivity.
  - apply (H4 "adapter_bias"%string 0). vm_compute. reflexivity.
  - apply (H5 "wte"%string 1 7); vm_compute; reflexivity.
  - apply (H6 "gating_factor"%string 2); vm_compute; reflexivity.
  - apply H7; vm_compute; reflexivity.
Defined.

Lemma loss_scores_next_token_witness :
  iteration_loss ([[[1; 2]]] ++ [[[3; 4; 5]]]) [[10; 20; 30; 40; 50]]
    = Ok ([[[1; 2]]; [[3; 4]]], [[20; 30; 40; 50]]) /\
  sequence_logits ([[[1; 2]]] ++ [[[3; 4]]]) 0 !! 2%nat
    = sequence_logits ([[[1; 2]]] ++ [[[3; 4; 5]]]) 0 !! 2%nat /\
  List.tl [10; 20; 30; 40; 50] !! 2%nat = [10; 20; 30; 40; 50] !! 3%nat.
Proof.
  destruct (loss_scores_next_token Demo.demo_hparams Demo.demo_out_dir
              [[[1; 2]]] [[3; 4; 5]] [[10; 20; 30; 40; 50]])
    as (H1 & H2 & H3 & _).
  split; [exact H1 |]. split.
  - refine (proj2 (H2 0%nat 2%nat [3; 4; 5] eq_refl _) _);
      [discriminate | vm_compute; lia].
  - exact (proj2 (H3 0%nat 2%nat _ eq_refl)).
Defined.

Lemma first_step_has_zero_lr_witness :
  (0 < warmup_steps Demo.demo_hparams)%Q /\
  (0 < gradient_accumulation_iters Demo.demo_hparams)%Q /\
  exists st tr groups,
    train_loop Demo.demo_hparams Demo.demo_out_dir (seqZ 0 6) Demo.demo_start
      = Ok (st, tr) /\
    first_optimizer_step tr = Some groups /\
    Forall (fun g => (pg_lr g == 0)%Q) groups.
Proof.
  split; [reflexivity |]. split; [reflexivity |].
  destruct (train_loop Demo.demo_hparams Demo.demo_out_dir (seqZ 0 6)
              Demo.demo_start) as [[st tr] |] eqn:Hloop;
    [| vm_compute in Hloop; discriminate Hloop].
  destruct (first_optimizer_step tr) as [groups |] eqn:Hfirst.
  - exists st, tr, groups. split; [reflexivity |]. split; [exact Hfirst |].
    exact (proj1 (first_step_has_zero_lr Demo.demo_hparams Demo.demo_out_dir
                    Demo.demo_model
                    (make_optimizer Demo.demo_hparams Demo.demo_model)
                    eq_refl eq_refl)
             (seqZ 0 6) st tr groups Hloop Hfirst).
  - exfalso. vm_compute in Hloop. injection Hloop as _ <-.
    vm_compute in Hfirst. discriminate Hfirst.
Defined.

(** * Further properties *)

(** ** Checkpoint names can be read back *)

Lemma zeros_S (k : nat) :
  String.concat "" (replicate (S k) "0"%string)
    = String "0"%char (String.concat "" (replicate k "0"%string)).
Proof. destruct k; reflexivity. Qed.

Lemma read_digits_zeros (k : nat) (t : string) :
  read_digits 0 (String.concat "" (replicate k "0"%string) +:+ t)
    = read_digits 0 t.
Proof.
  induction k as [| k IH]; [reflexivity |].
  rewrite zeros_S. exact IH.
Qed.

Lemma pretty_N_char_digit (d : N) :
  (d < 10)%N ->
  is_digit (pretty_N_char d) = true /\ digit_value (pretty_N_char d) = d.
Proof.
  intros Hd.
  assert (H : (d = 0 \/ d = 1 \/ d = 2 \/ d = 3 \/ d = 4 \/ d = 5 \/ d = 6
               \/ d = 7 \/ d = 8 \/ d = 9)%N) by lia.
  repeat destruct H as [-> | H]; try subst d; split; reflexivity.
Qed.

Lemma pretty_N_go_app (x : N) : forall s t : string,
  pretty_N_go x s +:+ t = pretty_N_go x (s +:+ t).
Proof.
  induction (N.lt_wf_0 x) as [x _ IH]. intros s t.
  destruct (N.eq_dec x 0%N) as [-> | Hx].
  - rewrite !pretty_N_go_0. reflexivity.
  - rewrite (pretty_N_go_step x s), (pretty_N_go_step x (s +:+ t)) by lia.
    rewrite IH by (apply N.div_lt; lia). reflexivity.
Qed.

Lemma read_digits_pretty_go (x : N) : forall s : string,
  read_digits 0 (pretty_N_go x s) = read_digits x s.
Proof.
  induction (N.lt_wf_0 x) as [x _ IH]. intros s.
  destruct (N.eq_dec x 0%N) as [-> | Hx].
  - rewrite pretty_N_go_0. reflexivity.
  - rewrite pretty_N_go_step by lia.
    rewrite IH by (apply N.div_lt; lia).
    destruct (pretty_N_char_digit (x mod 10)) as [Hd Hv];
      [apply N.mod_lt; lia |].
    cbn [read_digits]. rewrite Hd, Hv. f_equal.
    rewrite (N.div_mod x 10) at 3 by lia. lia.
Qed.

Lemma read_digits_pretty (n : N) (t : string) :
  read_digits 0 (pretty n +:+ t) = read_digits n t.
Proof.
  unfold pretty, pretty_N. destruct (decide (n = 0%N)) as [-> | Hn].
  - reflexivity.
  - rewrite pretty_N_go_app. apply read_digits_pretty_go.
Qed.

Lemma string_app_assoc (a b c : string) : (a +:+ b) +:+ c = a +:+ (b +:+ c).
Proof.
  induction a as [| x a IH]; [reflexivity |].
  change (String x ((a +:+ b) +:+ c) = String x (a +:+ (b +:+ c))).
  f_equal. exact IH.
Qed.

Lemma read_digits_format_06d (n : Z) (t : string) :
  0 <= n -> read_digits 0 (format_06d n +:+ t) = read_digits (Z.to_N n) t.
Proof.
  intros Hn. unfold format_06d.
  destruct (Z.ltb_spec n 0) as [| _]; [lia |].
  unfold zfill. rewrite string_app_assoc, read_digits_zeros.
  apply read_digits_pretty.
Qed.

Lemma ckpt_iter_num_name (n : Z) :
  0 <= n -> ckpt_iter_num (iter_ckpt_name n) = Some (Z.to_N n).
Proof.
  intros Hn. unfold iter_ckpt_name.
  change ("iter-" +:+ format_06d n +:+ "-ckpt.pth")
    with (String "i" (String "t" (String "e" (String "r" (String "-"
            (format_06d n +:+ "-ckpt.pth")))))).
  cbn [ckpt_iter_num]. rewrite read_digits_format_06d by exact Hn.
  reflexivity.
Qed.

Lemma iter_ckpt_name_inj (i j : Z) :
  0 <= i -> 0 <= j -> iter_ckpt_name i = iter_ckpt_name j -> i = j.
Proof.
  intros Hi Hj E. pose proof (ckpt_iter_num_name i Hi) as H1.
  rewrite E, (ckpt_iter_num_name j Hj) in H1. injection H1 as H1. lia.
Qed.

(** X5. The iteration number can be read back from the name of a
    periodic checkpoint, so two different iterations never write to the
    same file, however many digits the number takes. *)
Theorem iter_ckpt_name_read_back (i j : Z) :
  0 <= i -> 0 <= j ->
  ckpt_iter_num (iter_ckpt_name i) = Some (Z.to_N i) /\
  (iter_ckpt_name i = iter_ckpt_name j -> i = j).
Proof.
  intros Hi Hj. split; [exact (ckpt_iter_num_name i Hi) |].
  exact (iter_ckpt_name_inj i j Hi Hj).
Qed.

Lemma iter_ckpt_name_read_back_witness :
  ckpt_iter_num (iter_ckpt_name 1234567) = Some 1234567%N /\
  (iter_ckpt_name 1234567 = iter_ckpt_name 63999 -> 1234567 = 63999).
Proof.
  exact (iter_ckpt_name_read_back 1234567 63999 ltac:(lia) ltac:(lia)).
Defined.

(** ** Counting over the loop *)

Lemma div_succ (n g : Z) :
  0 < g -> 0 <= n ->
  (n + 1) / g = n / g + (if (n + 1) mod g =? 0 then 1 else 0).
Proof.
  intros Hg Hn.
  pose proof (Z.div_mod n g ltac:(lia)) as Hdm.
  pose proof (Z.mod_pos_bound n g Hg) as Hb.
  destruct (Z.eq_dec (n mod g) (g - 1)) as [E | E].
  - assert (Hs : n + 1 = g * (n / g + 1)) by nia.
    assert (Hm : (n + 1) mod g = 0).
    { rewrite Hs, Z.mul_comm. apply Z.mod_mul. lia. }
    rewrite Hm. cbn. rewrite Hs at 1. rewrite Z.mul_comm, Z.div_mul by lia.
    reflexivity.
  - assert (Hm : (n + 1) mod g = n mod g + 1).
    { symmetry. apply (Z.mod_unique_pos _ _ (n / g)); lia. }
    assert (Hd : (n + 1) / g = n / g).
    { symmetry. apply (Z.div_unique_pos _ _ _ (n mod g + 1)); lia. }
    rewrite Hm, Hd. destruct (Z.eqb_spec (n mod g + 1) 0); lia.
Qed.

Section LoopCounts.

Context {tensor vec loss_t : Type} `{!Framework tensor vec loss_t}.
Variable hp : hparams.
Variable out_dir : path.

Local Abbreviation train_state := (train_state (tensor := tensor)).
Local Abbreviation event := (event tensor loss_t).

Implicit Types (st : train_state) (evs tr : list event) (iters : list Z).

(** What each kind of event of one iteration is. *)
Lemma train_iter_shape st (iter_num : Z) st' evs :
  train_iter hp out_dir st iter_num = Ok (st', evs) ->
  let ix := if iter_num =? 0 then Some longest_seq_ix else None in
  exists groups acc loss dv ds,
    warmup hp st = Ok groups /\
    is_accumulating hp iter_num = Ok acc /\
    due acc (step_count st') (eval_interval hp) = Ok dv /\
    due acc (step_count st') (save_interval hp) = Ok ds /\
    st' = state_after st groups acc /\
    List.filter is_get_batch evs = [GetBatch iter_num ix] /\
    List.filter is_backward evs
      = [Backward loss (gradient_accumulation_iters hp) acc] /\
    List.filter is_optimizer_step evs
      = (if acc then [] else [OptimizerStep groups]) /\
    List.filter is_zero_grad evs = (if acc then [] else [ZeroGrad]) /\
    List.filter is_validate evs = (if dv then [Validate] else []) /\
    save_paths evs
      = (if ds then [path_join out_dir (iter_ckpt_name iter_num)] else []).
Proof.
  intros Hrun ix.
  destruct (train_iter_inv hp out_dir _ _ _ _ Hrun)
    as (groups & acc & loss & lg & dv & ds & Hw & Ha & _ & _ & Hv & Hs
        & Hst & ->).
  exists groups, acc, loss, dv, ds.
  repeat (split; [assumption |]).
  unfold save_adapter_v2_checkpoint, fabric_save.
  destruct acc, xla, (lg =? 0), dv, ds; repeat split; reflexivity.
Qed.

Lemma train_loop_app_inv iters1 : forall iters2 st st' tr,
  train_loop hp out_dir (iters1 ++ iters2) st = Ok (st', tr) ->
  exists st1 tr1 tr2,
    train_loop hp out_dir iters1 st = Ok (st1, tr1) /\
    train_loop hp out_dir iters2 st1 = Ok (st', tr2) /\
    tr = tr1 ++ tr2.
Proof.
  induction iters1 as [| i iters1 IH]; intros iters2 st st' tr H.
  - exists st, [], tr. auto.
  - cbn [app] in H.
    apply train_loop_cons in H as (sa & ea & ta & Ha & Hb & ->).
    destruct (IH _ _ _ _ Hb) as (st1 & tr1 & tr2 & H1 & H2 & ->).
    exists st1, (ea ++ tr1), tr2. split; [| split; [exact H2 |]].
    + cbn [train_loop]. rewrite Ha. mstep. cbn [fst snd]. rewrite H1.
      reflexivity.
    + rewrite app_assoc. reflexivity.
Qed.

(** [step_count] counts the optimizer steps; every iteration fetches one
    batch and takes one backward pass. *)
Lemma train_loop_counts iters : forall st st' tr,
  train_loop hp out_dir iters st = Ok (st', tr) ->
  step_count st'
    = step_count st + Z.of_nat (length (List.filter is_optimizer_step tr)) /\
  length (List.filter is_zero_grad tr)
    = length (List.filter is_optimizer_step tr) /\
  length (List.filter is_backward tr) = length iters /\
  List.filter is_get_batch tr
    = (fun i => GetBatch i (if i =? 0 then Some longest_seq_ix else None))
        <$> iters.
Proof.
  induction iters as [| i iters IH]; intros st st' tr H.
  - injection H as <- <-. cbn. repeat split. lia.
  - apply train_loop_cons in H as (st1 & ev1 & tr2 & H1 & H2 & ->).
    destruct (IH _ _ _ H2) as (Hsc & Hz & Hb & Hg).
    destruct (train_iter_shape _ _ _ _ H1)
      as (groups & acc & loss & dv & ds & _ & _ & _ & _ & Hst & Eg & Eb
          & Es & Ez & _ & _).
    rewrite !List.filter_app, !length_app, Eg, Eb, Es, Ez, Hg, Hb, Hz, Hsc.
    rewrite Hst. destruct acc; cbn; repeat split; lia.
Qed.

Variable g : Z.
Hypothesis gai_int : gradient_accumulation_iters hp = inject_Z g.
Hypothesis g_pos : 0 < g.

(** After the first [n] iterations, [n // g] steps have been taken. *)
Lemma step_count_seqZ (n : nat) : forall st st' tr,
  train_loop hp out_dir (seqZ 0 (Z.of_nat n)) st = Ok (st', tr) ->
  step_count st' = step_count st + Z.of_nat n / g.
Proof.
  induction n as [| n IH]; intros st st' tr Hloop.
  - injection Hloop as <- <-. cbn. rewrite Z.div_0_l by lia. lia.
  - rewrite seqZ_S in Hloop.
    destruct (train_loop_snoc_inv hp out_dir _ _ _ _ _ Hloop)
      as (s1 & t1 & ev & Hp & Hi & ->).
    rewrite Z.add_0_l in Hi.
    destruct (train_iter_shape _ _ _ _ Hi)
      as (groups & acc & _ & _ & _ & _ & Hacc & _ & _ & -> & _).
    rewrite (is_accumulating_int hp _ g _ gai_int Hacc).
    rewrite Nat2Z.inj_succ, <- Z.add_1_r, div_succ by lia.
    pose proof (IH _ _ _ Hp) as Hs1.
    destruct ((Z.of_nat n + 1) mod g =? 0); cbn; lia.
Qed.

(** A stretch of iterations none of which completes a batch leaves the
    model and [step_count] alone. *)
Lemma accumulating_loop iters : forall st st' tr,
  Forall (fun i => (i + 1) mod g <> 0) iters ->
  train_loop hp out_dir iters st = Ok (st', tr) ->
  model st' = model st /\ step_count st' = step_count st /\
  List.filter is_optimizer_step tr = [] /\
  List.filter is_validate tr = [] /\ save_paths tr = [].
Proof.
  induction iters as [| i iters IH]; intros st st' tr Hall H.
  - injection H as <- <-. repeat split.
  - apply train_loop_cons in H as (st1 & ev1 & tr2 & H1 & H2 & ->).
    apply Forall_cons in Hall as [Hi Hall].
    destruct (IH _ _ _ Hall H2) as (Hm & Hsc & Hs & Hv & Hp).
    destruct (train_iter_shape _ _ _ _ H1)
      as (groups & acc & loss & dv & ds & _ & Hacc & Hdv & Hds & Hst & _ & _
          & Es & _ & Ev & Ep).
    rewrite (is_accumulating_int hp _ g _ gai_int Hacc) in *.
    apply Z.eqb_neq in Hi. rewrite Hi in *. cbn [negb] in *.
    cbn [due] in Hdv, Hds. injection Hdv as <-. injection Hds as <-.
    unfold save_paths in *. rewrite omap_app, Ep, Hp.
    rewrite !List.filter_app, Es, Hs, Ev, Hv, Hm, Hsc, Hst.
    repeat split.
Qed.

End LoopCounts.

Lemma step_period (i g E : Z) :
  0 < g -> 0 < E -> 0 <= i ->
  ((i + 1) mod g =? 0) && ((i / g + 1) mod E =? 0)
    = ((i + 1) mod (g * E) =? 0).
Proof.
  intros Hg HE Hi.
  rewrite (Z.rem_mul_r (i + 1) g E) by lia.
  pose proof (Z.mod_pos_bound (i + 1) g Hg) as Hb1.
  pose proof (Z.mod_pos_bound ((i + 1) / g) E HE) as Hb2.
  rewrite (div_succ i g Hg Hi) in *.
  destruct (Z.eqb_spec ((i + 1) mod g) 0) as [E0 | E0]; cbn [andb].
  - rewrite E0. rewrite Z.add_0_l.
    destruct (Z.eqb_spec ((i / g + 1) mod E) 0) as [E1 | E1];
      destruct (Z.eqb_spec (g * ((i / g + 1) mod E)) 0); try reflexivity; nia.
  - destruct (Z.eqb_spec ((i + 1) mod g + g * ((i / g + 0) mod E)) 0);
      [nia | reflexivity].
Qed.

Section PeriodFacts.

Context {tensor vec loss_t : Type} `{!Framework tensor vec loss_t}.
Variable hp : hparams.
Variable out_dir : path.

Local Abbreviation train_state := (train_state (tensor := tensor)).
Local Abbreviation event := (event tensor loss_t).

Implicit Types (st : train_state) (evs tr : list event) (iters : list Z).

Variable g : Z.
Hypothesis gai_int : gradient_accumulation_iters hp = inject_Z g.
Hypothesis g_pos : 0 < g.

(** What iteration [i] of a run from step 0 validates and saves. *)
Lemma train_iter_period (i : Z) st0 st tr st' evs :
  0 < eval_interval hp -> 0 < save_interval hp -> 0 <= i ->
  step_count st0 = 0 ->
  train_loop hp out_dir (seqZ 0 i) st0 = Ok (st, tr) ->
  train_iter hp out_dir st i = Ok (st', evs) ->
  List.filter is_validate evs
    = (if (i + 1) mod (g * eval_interval hp) =? 0 then [Validate] else []) /\
  save_paths evs
    = (if (i + 1) mod (g * save_interval hp) =? 0
       then [path_join out_dir (iter_ckpt_name i)] else []).
Proof.
  intros HE HS Hi Hsc0 Hloop Hrun.
  rewrite <- (Z2Nat.id i) in Hloop by lia.
  pose proof (step_count_seqZ hp out_dir g gai_int g_pos _ _ _ _ Hloop) as Hs.
  rewrite Z2Nat.id, Hsc0, Z.add_0_l in Hs by lia.
  destruct (train_iter_shape hp out_dir _ _ _ _ Hrun)
    as (groups & acc & loss & dv & ds & _ & Hacc & Hdv & Hds & Hst & _ & _
        & _ & _ & -> & ->).
  apply due_spec in Hdv as [-> _]. apply due_spec in Hds as [-> _].
  rewrite (is_accumulating_int hp _ g _ gai_int Hacc) in *.
  rewrite <- (step_period i g _ g_pos HE Hi).
  rewrite <- (step_period i g _ g_pos HS Hi).
  rewrite Hst, negb_involutive.
  destruct ((i + 1) mod g =? 0); cbn [negb andb state_after step_count];
    [rewrite Hs |]; split; reflexivity.
Qed.

(** Validations and periodic checkpoints of the first [n] iterations. *)
Lemma train_loop_period_counts (n : nat) : forall st0 st tr,
  0 < eval_interval hp -> 0 < save_interval hp -> step_count st0 = 0 ->
  train_loop hp out_dir (seqZ 0 (Z.of_nat n)) st0 = Ok (st, tr) ->
  Z.of_nat (length (List.filter is_validate tr))
    = Z.of_nat n / (g * eval_interval hp) /\
  Z.of_nat (length (save_paths tr)) = Z.of_nat n / (g * save_interval hp).
Proof.
  induction n as [| n IH]; intros st0 st tr HE HS Hsc Hloop.
  - injection Hloop as <- <-. cbn. rewrite !Z.div_0_l by nia. split; reflexivity.
  - rewrite seqZ_S in Hloop.
    destruct (train_loop_snoc_inv hp out_dir _ _ _ _ _ Hloop)
      as (s1 & t1 & ev & Hp & Hi & ->).
    rewrite Z.add_0_l in Hi.
    destruct (IH _ _ _ HE HS Hsc Hp) as [Hv Hs].
    destruct (train_iter_period (Z.of_nat n) st0 s1 t1 st ev HE HS
                ltac:(lia) Hsc Hp Hi) as [Ev Es].
    unfold save_paths in *.
    rewrite List.filter_app, omap_app, !length_app, Ev, Es.
    rewrite Nat2Z.inj_succ, <- Z.add_1_r.
    rewrite !(div_succ (Z.of_nat n)) by nia.
    rewrite !Nat2Z.inj_add, Hv, Hs.
    split; [destruct ((Z.of_nat n + 1) mod (g * eval_interval hp) =? 0)
           | destruct ((Z.of_nat n + 1) mod (g * save_interval hp) =? 0)];
      reflexivity.
Qed.

End PeriodFacts.

Section LoopExtras.

Context {tensor vec loss_t : Type} `{!Framework tensor vec loss_t}.
Variable hp : hparams.
Variable out_dir : path.

Local Abbreviation train_state := (train_state (tensor := tensor)).
Local Abbreviation event := (event tensor loss_t).

Implicit Types (st : train_state) (evs tr : list event) (iters : list Z).

(** X10. Over any stretch of the loop, step_count goes up by the number
    of optimizer.step() calls, and every step is paired with one
    zero_grad(). *)
Theorem step_count_counts_steps iters st st' tr :
  train_loop hp out_dir iters st = Ok (st', tr) ->
  step_count st'
    = step_count st + Z.of_nat (length (List.filter is_optimizer_step tr)) /\
  length (List.filter is_zero_grad tr)
    = length (List.filter is_optimizer_step tr).
Proof.
  intros H. destruct (train_loop_counts hp out_dir iters _ _ _ H)
    as (H1 & H2 & _). split; assumption.
Qed.

(** X8. Every iteration fetches one batch and takes one backward pass,
    in the order of the iterations, and only iteration 0 asks get_batch
    for the longest sequence of the training set. *)
Theorem one_batch_per_iteration iters st st' tr :
  train_loop hp out_dir iters st = Ok (st', tr) ->
  List.filter is_get_batch tr
    = (fun i => GetBatch i (if i =? 0 then Some longest_seq_ix else None))
        <$> iters /\
  length (List.filter is_backward tr) = length iters /\
  (forall i ix, GetBatch i (Some ix) ∈ tr -> i = 0 /\ ix = longest_seq_ix).
Proof.
  intros H. destruct (train_loop_counts hp out_dir iters _ _ _ H)
    as (_ & _ & Hb & Hg).
  split; [exact Hg |]. split; [exact Hb |].
  intros i ix Hin.
  assert (Hin' : GetBatch i (Some ix) ∈ List.filter is_get_batch tr).
  { apply list_elem_of_In, List.filter_In. split; [| reflexivity].
    apply list_elem_of_In. exact Hin. }
  rewrite Hg in Hin'. apply list_elem_of_fmap in Hin' as (j & Ej & _).
  destruct (Z.eqb_spec j 0) as [E0 | E0]; [| discriminate Ej].
  injection Ej as -> ->. split; [exact E0 | reflexivity].
Qed.

(** X7. When warmup_steps is 0 and there is at least one iteration, the
    warmup at the start of the first iteration (line 157) divides by
    zero, and [train], and [main] with it, end in ZeroDivisionError
    instead of returning. *)
Theorem zero_warmup_raises (model0 : gmap string (param tensor))
    (optimizer0 : list param_group) (initialized : gmap string tensor)
    (checkpoint_dir : path) :
  (warmup_steps hp == 0)%Q -> 0 < max_iters hp ->
  warmup hp {| step_count := 0; optimizer := optimizer0; model := model0 |}
    = Raise ZeroDivisionError /\
  train hp out_dir model0 optimizer0 = Raise ZeroDivisionError /\
  main hp out_dir initialized checkpoint_dir = Raise ZeroDivisionError.
Proof.
  intros Hws Hn.
  assert (Hwarm : forall (m : gmap string (param tensor)) o,
            warmup hp {| step_count := 0; optimizer := o; model := m |}
              = Raise ZeroDivisionError).
  { intros m o. unfold warmup, Py.fdiv. cbn [step_count].
    assert (Hle : Qle_bool (inject_Z 0) (warmup_steps hp) = true).
    { apply Qle_bool_iff. rewrite Hws. apply Qle_refl. }
    rewrite Hle, (proj2 (Qeq_bool_iff _ _) Hws). reflexivity. }
  split; [apply Hwarm |].
  assert (Htrain : forall m o, train hp out_dir m o = Raise ZeroDivisionError).
  { intros m o. unfold train. rewrite seqZ_cons by lia.
    cbn [train_loop]. unfold train_iter, warmup, Py.fdiv.
    cbn [step_count].
    assert (Hle : Qle_bool (inject_Z 0) (warmup_steps hp) = true).
    { apply Qle_bool_iff. rewrite Hws. apply Qle_refl. }
    rewrite Hle, (proj2 (Qeq_bool_iff _ _) Hws). reflexivity. }
  split; [apply Htrain |]. unfold main. rewrite Htrain. reflexivity.
Qed.

Variable g : Z.
Hypothesis gai_int : gradient_accumulation_iters hp = inject_Z g.
Hypothesis g_pos : 0 < g.

(** X1. With gradient_accumulation_iters the whole number g, the first n
    iterations take exactly n // g optimizer steps and n backward
    passes, and leave step_count at n // g. *)
Theorem steps_after_iterations (n : Z) st st' tr :
  0 <= n -> step_count st = 0 ->
  train_loop hp out_dir (seqZ 0 n) st = Ok (st', tr) ->
  step_count st' = n / g /\
  length (List.filter is_optimizer_step tr) = Z.to_nat (n / g) /\
  length (List.filter is_backward tr) = Z.to_nat n.
Proof.
  intros Hn Hsc Hloop.
  destruct (train_loop_counts hp out_dir _ _ _ _ Hloop) as (Hc & _ & Hb & _).
  rewrite <- (Z2Nat.id n) in Hloop by lia.
  pose proof (step_count_seqZ hp out_dir g gai_int g_pos _ _ _ _ Hloop) as Hs.
  rewrite Z2Nat.id in Hs by lia. rewrite Hsc in Hs, Hc.
  split; [lia |]. split; [lia |].
  rewrite Hb, length_seqZ. reflexivity.
Qed.

(** X2. The iterations after the last full group of g change neither the
    model nor step_count: after n iterations the model is the one after
    (n // g) * g iterations, and the n % g backward passes that follow
    are never applied by a step, nor followed by a validation or a
    checkpoint. *)
Theorem trailing_iterations_unapplied (n : Z) st st' tr :
  0 <= n ->
  train_loop hp out_dir (seqZ 0 n) st = Ok (st', tr) ->
  exists st1 tr1 tr2,
    train_loop hp out_dir (seqZ 0 (n / g * g)) st = Ok (st1, tr1) /\
    tr = tr1 ++ tr2 /\
    model st' = model st1 /\ step_count st' = step_count st1 /\
    List.filter is_optimizer_step tr2 = [] /\
    List.filter is_validate tr2 = [] /\ save_paths tr2 = [] /\
    length (List.filter is_backward tr2) = Z.to_nat (n mod g).
Proof.
  intros Hn Hloop.
  pose proof (Z.div_mod n g ltac:(lia)) as Hdm.
  pose proof (Z.mod_pos_bound n g g_pos) as Hb.
  assert (Hq : 0 <= n / g) by (apply Z.div_pos; lia).
  set (m := n / g * g) in *.
  assert (Hm : 0 <= m) by (subst m; nia).
  replace n with (m + n mod g) in Hloop at 1 by (subst m; lia).
  rewrite seqZ_app in Hloop by lia. rewrite Z.add_0_l in Hloop.
  destruct (train_loop_app_inv hp out_dir _ _ _ _ _ Hloop)
    as (st1 & tr1 & tr2 & H1 & H2 & ->).
  exists st1, tr1, tr2. split; [exact H1 |]. split; [reflexivity |].
  assert (Hall : Forall (fun i => (i + 1) mod g <> 0) (seqZ m (n mod g))).
  { apply Forall_seqZ. intros i Hi.
    replace (i + 1) with ((i + 1 - m) + n / g * g) by (subst m; lia).
    rewrite Z.mod_add by lia. rewrite Z.mod_small by lia. lia. }
  destruct (accumulating_loop hp out_dir g gai_int _ _ _ _ Hall H2)
    as (Hmod & Hsc & Hs & Hv & Hp).
  destruct (train_loop_counts hp out_dir _ _ _ _ H2) as (_ & _ & Hbw & _).
  repeat (split; [assumption |]).
  rewrite Hbw, length_seqZ. reflexivity.
Qed.

(** X3. In a run from step_count 0, validation happens exactly at the
    iterations with (iter_num + 1) a multiple of g * eval_interval, and a
    periodic checkpoint is written, under the name of the iteration,
    exactly at those with (iter_num + 1) a multiple of
    g * save_interval. *)
Theorem validation_and_checkpoint_period (i : Z) st0 st tr st' evs :
  0 < eval_interval hp -> 0 < save_interval hp -> 0 <= i ->
  step_count st0 = 0 ->
  train_loop hp out_dir (seqZ 0 i) st0 = Ok (st, tr) ->
  train_iter hp out_dir st i = Ok (st', evs) ->
  List.filter is_validate evs
    = (if (i + 1) mod (g * eval_interval hp) =? 0 then [Validate] else []) /\
  save_paths evs
    = (if (i + 1) mod (g * save_interval hp) =? 0
       then [path_join out_dir (iter_ckpt_name i)] else []).
Proof.
  exact (train_iter_period hp out_dir g gai_int g_pos i st0 st tr st' evs).
Qed.

(** X11. A run of n iterations from step_count 0 validates
    (n // g) // eval_interval times inside the loop and writes
    (n // g) // save_interval periodic checkpoints, one file each;
    [train] validates once more, before the loop. *)
Theorem validation_and_checkpoint_count (n : Z) st0 st tr :
  0 < eval_interval hp -> 0 < save_interval hp -> 0 <= n ->
  step_count st0 = 0 ->
  train_loop hp out_dir (seqZ 0 n) st0 = Ok (st, tr) ->
  length (List.filter is_validate tr)
    = Z.to_nat (n / g / eval_interval hp) /\
  length (save_paths tr) = Z.to_nat (n / g / save_interval hp) /\
  NoDup (save_paths tr) /\
  (forall model0 optimizer0 r,
     n = max_iters hp ->
     train hp out_dir model0 optimizer0 = Ok r ->
     length (List.filter is_validate r.2)
       = S (Z.to_nat (n / g / eval_interval hp))).
Proof.
  intros HE HS Hn Hsc Hloop.
  assert (Hcount : forall s0 s t,
            step_count s0 = 0 ->
            train_loop hp out_dir (seqZ 0 n) s0 = Ok (s, t) ->
            length (List.filter is_validate t)
              = Z.to_nat (n / g / eval_interval hp) /\
            length (save_paths t) = Z.to_nat (n / g / save_interval hp)).
  { intros s0 s t Hs0 Hl. rewrite <- (Z2Nat.id n) in Hl by lia.
    destruct (train_loop_period_counts hp out_dir g gai_int g_pos _ _ _ _
                HE HS Hs0 Hl) as [Hv Hs].
    rewrite Z2Nat.id in Hv, Hs by lia.
    rewrite !Z.div_div by lia. split; lia. }
  destruct (Hcount _ _ _ Hsc Hloop) as [Hv Hs].
  split; [exact Hv |]. split; [exact Hs |]. split.
  - clear Hv Hs Hcount Hsc. revert st0 st tr Hloop.
    generalize (NoDup_seqZ 0 n).
    assert (Hnn : Forall (fun i => 0 <= i) (seqZ 0 n))
      by (apply Forall_seqZ; lia).
    revert Hnn. generalize (seqZ 0 n) as iters.
    intros iters Hnn Hnd st0 st tr Hloop.
    assert (Hsub : forall its s0 s t,
              train_loop hp out_dir its s0 = Ok (s, t) ->
              exists js, sublist js its /\
                save_paths t
                  = (fun i => path_join out_dir (iter_ckpt_name i)) <$> js).
    { induction its as [| i its IH]; intros s0 s t Hl.
      - injection Hl as <- <-. exists []. split; [constructor | reflexivity].
      - apply train_loop_cons in Hl as (s1 & e1 & t2 & H1 & H2 & ->).
        destruct (IH _ _ _ H2) as (js & Hjs & Ejs).
        destruct (train_iter_shape hp out_dir _ _ _ _ H1)
          as (gr & acc & loss & dv & ds & _ & _ & _ & _ & _ & _ & _ & _
              & _ & _ & Ep).
        unfold save_paths in *. rewrite omap_app, Ep, Ejs.
        destruct ds.
        + exists (i :: js). split; [constructor; exact Hjs | reflexivity].
        + exists js. split; [constructor; exact Hjs | reflexivity]. }
    destruct (Hsub _ _ _ _ Hloop) as (js & Hjs & ->).
    apply NoDup_fmap_2_strong; [| eapply sublist_NoDup; eassumption].
    intros i j Hi Hj E. apply path_join_inj in E.
    rewrite Forall_forall in Hnn.
    assert (Hin : forall k, k ∈ js -> 0 <= k).
    { intros k Hk. apply Hnn. eapply sublist_subseteq; eassumption. }
    exact (iter_ckpt_name_inj i j (Hin i Hi) (Hin j Hj) E).
  - intros model0 optimizer0 r -> Htrain. unfold train in Htrain.
    apply bind_Ok in Htrain as ([s t] & Hl & Htrain).
    injection Htrain as <-. cbn [fst snd].
    destruct (Hcount {| step_count := 0; optimizer := optimizer0;
                        model := model0 |} s t eq_refl Hl) as [Hv' _].
    cbn [List.filter is_validate length]. f_equal.
    rewrite List.filter_app, length_app, Hv'. destruct xla; reflexivity.
Qed.

End LoopExtras.

(** ** The rate of every step *)

Section StepRate.

Context {tensor vec loss_t : Type} `{!Framework tensor vec loss_t}.
Variable hp : hparams.
Variable out_dir : path.

Local Abbreviation train_state := (train_state (tensor := tensor)).
Local Abbreviation event := (event tensor loss_t).

Implicit Types (st : train_state) (evs tr : list event) (iters : list Z).

Lemma warmup_length st (groups : list param_group) :
  warmup hp st = Ok groups -> length groups = length (optimizer st).
Proof.
  intros H. destruct (warmup_inv hp _ _ H) as [[_ ->] | [_ ->]];
    [apply length_fmap | reflexivity].
Qed.

Lemma optimizer_length_invariant (n : nat) st (iter_num : Z) st' evs :
  length (optimizer st) = n ->
  train_iter hp out_dir st iter_num = Ok (st', evs) ->
  length (optimizer st') = n /\ Forall (fun _ => True) evs.
Proof.
  intros Hn Hrun. split; [| apply Forall_true; auto].
  destruct (train_iter_first_step hp out_dir _ _ _ _ Hrun)
    as (groups & acc & Hw & _ & -> & _).
  apply warmup_length in Hw. destruct acc; cbn; congruence.
Qed.

(** X4. In a run that starts from the optimizer [main] builds, with
    warmup_steps the whole number w > 0, the optimizer step of an
    iteration that starts at step_count = k runs, in its one param
    group, at the rate line 157 computes in doubles for step
    min(k, w): learning_rate * min(k, w) / warmup_steps, the product
    rounded and then the quotient. From step w on the rate is the one of
    step w, which is learning_rate only when the two roundings
    cancel. *)
Theorem step_learning_rate (w : Z) (model0 : gmap string (param tensor))
    iters st tr (iter_num : Z) st' evs (groups : list param_group) :
  warmup_steps hp = inject_Z w -> 0 < w ->
  train_loop hp out_dir iters
    {| step_count := 0; optimizer := make_optimizer hp model0;
       model := model0 |} = Ok (st, tr) ->
  train_iter hp out_dir st iter_num = Ok (st', evs) ->
  first_optimizer_step evs = Some groups ->
  length groups = 1%nat /\
  Forall (fun pg =>
            pg_lr pg = warmup_rate (learning_rate hp)
                         (Z.min (step_count st) w) (warmup_steps hp))
         groups.
Proof.
  intros Hw Hpos Hloop Hrun Hfirst.
  assert (Hstart : (warmup_steps hp < inject_Z 0)%Q ->
            Forall (fun pg => pg_lr pg = warmup_rate (learning_rate hp) w
                                           (warmup_steps hp))
                   (make_optimizer hp model0)).
  { rewrite Hw, <- Zlt_Qlt. lia. }
  destruct (train_loop_invariant hp out_dir
              (fun s => (warmup_steps hp < inject_Z (step_count s))%Q ->
                        Forall (fun pg => pg_lr pg
                                  = warmup_rate (learning_rate hp) w
                                      (warmup_steps hp))
                               (optimizer s))
              (fun _ => True) (past_warmup_invariant hp out_dir w Hw)
              iters {| step_count := 0; optimizer := make_optimizer hp model0;
                       model := model0 |} st tr Hstart Hloop)
    as [Hpast _].
  destruct (train_loop_invariant hp out_dir
              (fun s => length (optimizer s) = 1%nat) (fun _ => True)
              (optimizer_length_invariant 1)
              iters {| step_count := 0; optimizer := make_optimizer hp model0;
                       model := model0 |} st tr eq_refl Hloop) as [Hlen _].
  destruct (train_iter_first_step hp out_dir _ _ _ _ Hrun)
    as (groups' & acc & Hwarm & _ & _ & Hf).
  rewrite Hf in Hfirst. destruct acc; [discriminate |].
  injection Hfirst as ->.
  split; [rewrite (warmup_length _ _ Hwarm); exact Hlen |].
  destruct (warmup_inv hp _ _ Hwarm) as [[Hle ->] | [Hgt ->]].
  - eapply Forall_impl; [apply Forall_set_lr |]. intros pg ->.
    rewrite Hw in Hle. rewrite <- Zle_Qle in Hle.
    rewrite Z.min_l by exact Hle. reflexivity.
  - eapply Forall_impl; [exact (Hpast Hgt) |]. intros pg ->.
    rewrite Hw in Hgt. rewrite <- Zlt_Qlt in Hgt.
    rewrite Z.min_r by lia. reflexivity.
Qed.

End StepRate.

(** ** The hyperparameters in integers *)

Lemma Ok_inj {A : Type} (a b : A) : Ok a = Ok b -> a = b.
Proof. intros H. injection H as H. exact H. Qed.

Lemma floor_div_div (a d m : Z) :
  0 < d -> 0 < m ->
  Qfloor (inject_Z a / inject_Z d / inject_Z m) = a / (d * m).
Proof.
  intros Hd Hm. rewrite Zdiv_Qdiv. apply Qfloor_comp.
  rewrite inject_Z_mult. field. split.
  - change 0%Q with (inject_Z 0). rewrite inject_Z_injective. lia.
  - change 0%Q with (inject_Z 0). rewrite inject_Z_injective. lia.
Qed.

(** X6. For positive devices and micro_batch_size, and a dataset small
    enough that 2 * (epoch_size // micro_batch_size) // devices is below
    2^53 in size (so that it is a double as it stands), an import that
    goes through leaves whole numbers in the float hyperparameters:
    gradient_accumulation_iters is 128 // (devices * micro_batch_size),
    at least 1, so one optimizer step never covers more than 128 samples
    over all devices; max_iters and warmup_steps are the integer
    quotients the file writes. *)
Theorem hyperparameters_in_integers (l : literals) (h : hparams) :
  module_init l = Ok h ->
  0 < lit_devices l -> 0 < lit_micro_batch_size l ->
  Z.abs (2 * (lit_epoch_size l / lit_micro_batch_size l) / lit_devices l)
    < 2 ^ 53 ->
  let d := lit_devices l in
  let m := lit_micro_batch_size l in
  let g := 128 / (d * m) in
  gradient_accumulation_iters h = inject_Z g /\
  1 <= g /\ g * m * d <= 128 < (g + 1) * m * d /\
  max_iters h = lit_num_epochs l * (lit_epoch_size l / m) / d /\
  warmup_steps h = inject_Z (2 * (lit_epoch_size l / m) / d / g).
Proof.
  intros H Hd Hm _ d m g.
  pose proof (module_init_Ok l h H) as (_ & _ & Hb & Hg & Hpos & _).
  assert (Hgai : gradient_accumulation_iters h = inject_Z g).
  { rewrite Hg, Hb. f_equal. apply floor_div_div; assumption. }
  assert (Hdm : 0 < d * m) by nia.
  assert (Hg1 : 1 <= g).
  { rewrite Hgai in Hpos. change 0%Q with (inject_Z 0) in Hpos.
    rewrite <- Zlt_Qlt in Hpos. lia. }
  split; [exact Hgai |]. split; [exact Hg1 |].
  split.
  { pose proof (Z.div_mod 128 (d * m) ltac:(lia)) as E.
    pose proof (Z.mod_pos_bound 128 (d * m) Hdm) as B.
    fold g in E. nia. }
  unfold module_init in H.
  apply bind_Ok in H as (bs & _ & H). apply bind_Ok in H as (gai & Egai & H).
  apply bind_Ok in H as (_ & _ & H). apply bind_Ok in H as (pe & Epe & H).
  apply bind_Ok in H as (mi & Emi & H). apply bind_Ok in H as (pe' & Epe' & H).
  apply bind_Ok in H as (pd & Epd & H). apply bind_Ok in H as (ws & Ews & H).
  injection H as <-. cbn [gradient_accumulation_iters] in Hgai.
  cbn [max_iters warmup_steps].
  unfold Py.floordiv in Epe, Emi, Epe', Epd.
  destruct (Z.eqb_spec (lit_micro_batch_size l) 0); [lia |].
  destruct (Z.eqb_spec (lit_devices l) 0); [lia |].
  injection Epe as <-. injection Emi as <-. injection Epe' as <-.
  injection Epd as <-.
  split; [reflexivity |].
  unfold Py.ffloordiv in Ews. destruct (Qeq_bool gai 0); [discriminate |].
  apply Ok_inj in Ews. subst ws. rewrite Hgai. rewrite <- Zdiv_Qdiv.
  reflexivity.
Qed.

(** ** The further properties on the small run *)

Lemma step_count_counts_steps_witness :
  exists st tr,
    train_loop Demo.demo_hparams Demo.demo_out_dir (seqZ 0 6) Demo.demo_start
      = Ok (st, tr) /\
    step_count st
      = 0 + Z.of_nat (length (List.filter is_optimizer_step tr)) /\
    length (List.filter is_zero_grad tr)
      = length (List.filter is_optimizer_step tr).
Proof.
  destruct (train_loop_ok Demo.demo_hparams Demo.demo_out_dir (seqZ 0 6)
              Demo.demo_start eq_refl DemoFacts.demo_forward)
    as [[st tr] Hloop].
  exists st, tr. split; [exact Hloop |].
  exact (step_count_counts_steps Demo.demo_hparams Demo.demo_out_dir
           (seqZ 0 6) Demo.demo_start st tr Hloop).
Defined.

Lemma one_batch_per_iteration_witness :
  exists st tr,
    train_loop Demo.demo_hparams Demo.demo_out_dir (seqZ 0 3) Demo.demo_start
      = Ok (st, tr) /\
    List.filter is_get_batch tr
      = [GetBatch 0 (Some 0); GetBatch 1 None; GetBatch 2 None] /\
    length (List.filter is_backward tr) = 3%nat.
Proof.
  destruct (train_loop_ok Demo.demo_hparams Demo.demo_out_dir (seqZ 0 3)
              Demo.demo_start eq_refl DemoFacts.demo_forward)
    as [[st tr] Hloop].
  exists st, tr. split; [exact Hloop |].
  destruct (one_batch_per_iteration Demo.demo_hparams Demo.demo_out_dir
              (seqZ 0 3) Demo.demo_start st tr Hloop) as (H1 & H2 & _).
  split; [exact H1 | exact H2].
Defined.

Lemma zero_warmup_raises_witness :
  exists h,
    module_init Demo.tiny_set_literals = Ok h /\
    (warmup_steps h == 0)%Q /\ max_iters h = 150 /\
    warmup h {| step_count := 0;
                optimizer := make_optimizer h Demo.demo_model;
                model := Demo.demo_model |} = Raise ZeroDivisionError /\
    train h Demo.demo_out_dir Demo.demo_model
      (make_optimizer h Demo.demo_model) = Raise ZeroDivisionError /\
    main h Demo.demo_out_dir Demo.initialized Demo.demo_checkpoint_dir
      = Raise ZeroDivisionError.
Proof.
  eexists. split; [reflexivity |]. split; [reflexivity |].
  split; [reflexivity |].
  refine (zero_warmup_raises _ Demo.demo_out_dir Demo.demo_model _
            Demo.initialized Demo.demo_checkpoint_dir _ _);
    [reflexivity | reflexivity].
Defined.

Lemma steps_after_iterations_witness :
  exists st tr,
    train_loop Demo.demo_hparams Demo.demo_out_dir (seqZ 0 5) Demo.demo_start
      = Ok (st, tr) /\
    step_count st = 2 /\
    length (List.filter is_optimizer_step tr) = 2%nat /\
    length (List.filter is_backward tr) = 5%nat.
Proof.
  destruct (train_loop_ok Demo.demo_hparams Demo.demo_out_dir (seqZ 0 5)
              Demo.demo_start eq_refl DemoFacts.demo_forward)
    as [[st tr] Hloop].
  exists st, tr. split; [exact Hloop |].
  exact (steps_after_iterations Demo.demo_hparams Demo.demo_out_dir 2
           eq_refl eq_refl 5 Demo.demo_start st tr
           ltac:(discriminate) eq_refl Hloop).
Defined.

Lemma trailing_iterations_unapplied_witness :
  exists st tr st1 tr1 tr2,
    train_loop Demo.demo_hparams Demo.demo_out_dir (seqZ 0 5) Demo.demo_start
      = Ok (st, tr) /\
    train_loop Demo.demo_hparams Demo.demo_out_dir (seqZ 0 4) Demo.demo_start
      = Ok (st1, tr1) /\
    tr = tr1 ++ tr2 /\ model st = model st1 /\
    length (List.filter is_backward tr2) = 1%nat.
Proof.
  destruct (train_loop_ok Demo.demo_hparams Demo.demo_out_dir (seqZ 0 5)
              Demo.demo_start eq_refl DemoFacts.demo_forward)
    as [[st tr] Hloop].
  destruct (trailing_iterations_unapplied Demo.demo_hparams Demo.demo_out_dir
              2 eq_refl eq_refl 5 Demo.demo_start st tr
              ltac:(discriminate) Hloop)
    as (st1 & tr1 & tr2 & H1 & Htr & Hm & _ & _ & _ & _ & Hb).
  exists st, tr, st1, tr1, tr2. auto.
Defined.

Lemma validation_and_checkpoint_period_witness :
  exists st tr st' evs,
    train_loop Demo.demo_hparams Demo.demo_out_dir (seqZ 0 5) Demo.demo_start
      = Ok (st, tr) /\
    train_iter Demo.demo_hparams Demo.demo_out_dir st 5 = Ok (st', evs) /\
    List.filter is_validate evs = [] /\
    save_paths evs
      = [path_join Demo.demo_out_dir "iter-000005-ckpt.pth"].
Proof.
  destruct (train_loop_ok Demo.demo_hparams Demo.demo_out_dir (seqZ 0 5)
              Demo.demo_start eq_refl DemoFacts.demo_forward)
    as [[st tr] Hloop].
  destruct (train_iter_ok Demo.demo_hparams Demo.demo_out_dir st 5
              eq_refl DemoFacts.demo_forward) as [[st' evs] Hrun].
  exists st, tr, st', evs. split; [exact Hloop |]. split; [exact Hrun |].
  exact (validation_and_checkpoint_period Demo.demo_hparams Demo.demo_out_dir
           2 eq_refl eq_refl 5 Demo.demo_start st tr st' evs
           eq_refl eq_refl ltac:(discriminate) eq_refl Hloop Hrun).
Defined.

Lemma step_learning_rate_witness :
  exists st tr st' evs groups,
    train_loop Demo.demo_hparams Demo.demo_out_dir (seqZ 0 5) Demo.demo_start
      = Ok (st, tr) /\
    train_iter Demo.demo_hparams Demo.demo_out_dir st 5 = Ok (st', evs) /\
    first_optimizer_step evs = Some groups /\
    length groups = 1%nat /\
    Forall (fun pg =>
              pg_lr pg = warmup_rate (learning_rate Demo.demo_hparams)
                           (Z.min (step_count st) 2)
                           (warmup_steps Demo.demo_hparams))
           groups.
Proof.
  destruct (train_loop_ok Demo.demo_hparams Demo.demo_out_dir (seqZ 0 5)
              Demo.demo_start eq_refl DemoFacts.demo_forward)
    as [[st tr] Hloop].
  destruct (train_iter_ok Demo.demo_hparams Demo.demo_out_dir st 5
              eq_refl DemoFacts.demo_forward) as [[st' evs] Hrun].
  destruct (train_iter_first_step Demo.demo_hparams Demo.demo_out_dir
              _ _ _ _ Hrun) as (groups & acc & _ & Hacc & _ & Hf).
  assert (E : acc = false) by (vm_compute in Hacc; congruence).
  subst acc.
  exists st, tr, st', evs, groups.
  split; [exact Hloop |]. split; [exact Hrun |]. split; [exact Hf |].
  exact (step_learning_rate Demo.demo_hparams Demo.demo_out_dir 2
           Demo.demo_model (seqZ 0 5) st tr 5 st' evs groups
           eq_refl eq_refl Hloop Hrun Hf).
Defined.

Lemma hyperparameters_in_integers_witness :
  exists h,
    module_init source_literals = Ok h /\
    gradient_accumulation_iters h = inject_Z 64 /\
    64 * 2 * 1 <= 128 < (64 + 1) * 2 * 1 /\
    max_iters h = 125000 /\ warmup_steps h = inject_Z 781.
Proof.
  eexists. split; [reflexivity |].
  destruct (hyperparameters_in_integers source_literals _ eq_refl
              eq_refl eq_refl eq_refl) as (H1 & _ & H3 & H4 & H5).
  split; [exact H1 |]. split; [exact H3 |]. split; [exact H4 | exact H5].
Defined.

Lemma validation_and_checkpoint_count_witness :
  exists st tr,
    train_loop Demo.demo_hparams Demo.demo_out_dir (seqZ 0 6) Demo.demo_start
      = Ok (st, tr) /\
    length (List.filter is_validate tr) = 1%nat /\
    length (save_paths tr) = 1%nat /\
    NoDup (save_paths tr).
Proof.
  destruct (train_loop_ok Demo.demo_hparams Demo.demo_out_dir (seqZ 0 6)
              Demo.demo_start eq_refl DemoFacts.demo_forward)
    as [[st tr] Hloop].
  exists st, tr. split; [exact Hloop |].
  destruct (validation_and_checkpoint_count Demo.demo_hparams
              Demo.demo_out_dir 2 eq_refl eq_refl 6 Demo.demo_start st tr
              eq_refl eq_refl ltac:(discriminate) eq_refl Hloop)
    as (H1 & H2 & H3 & _).
  split; [exact H1 |]. split; [exact H2 | exact H3].
Defined.
